(** * FoodBridge admin API: team members, projects, recommendations

    A shallow embedding of the Express route handlers for team members
    ([team.js]) and for projects, of the static recommendations route
    and of the Mongoose schema [models/Project.js].

    Conventions of the embedding
    - A field of a request body or of a stored document is a JavaScript
      value that is [undefined], [null] or a proper value: type [js].
      Text fields hold strings, reference fields hold arrays of ids.
    - An [ObjectId] is an opaque identifier ([oid]); a [Date] is a number
      of milliseconds.
    - The database is a pair of collections (lists in insertion order)
      plus the log of the calls the handlers made to the Mongoose models.
    - [await]ed model calls live in a state monad with exceptions; the
      [try { ... } catch] of every handler is [try_catch].
    - The validators that the schema of [models/User.js] runs on
      [save()] are kept abstract: the section variable [userValid].
    - So is the pre-save hook of that model, which the team routes say
      hashes the password: the section variable [savedPassword].
    - A request reads the clock when it starts ([now]); the pre-save hook
      of a project that is being created reads it again, later: the
      section variable [later].
    - So is the [ignoreUndefined] option of the driver connection, which
      decides what a filter such as [{ email: undefined }] selects: the
      section variable [ignoreUndefined].
    - The database is reachable and the ids of a request are well-formed
      ObjectIds: the one exception a model call raises is the
      validation error of [save()]. *)

From Stdlib Require Import List String Arith Bool Lia Permutation Sorted.
Import ListNotations.
Open Scope string_scope.
Open Scope list_scope.

(** ** JavaScript values *)

Inductive js (A : Type) : Type :=
| Undefined
| Null
| Val (a : A).
Arguments Undefined {A}.
Arguments Null {A}.
Arguments Val {A} a.

(** Truthiness of the proper values: the empty string is falsy, every
    array (also the empty one) is truthy. *)
Class Truthy (A : Type) := truthy : A -> bool.

#[global] Instance string_truthy : Truthy string :=
  fun s => match s with EmptyString => false | String _ _ => true end.

#[global] Instance array_truthy {B : Type} : Truthy (list B) :=
  fun _ => true.

Definition js_truthy {A} `{Truthy A} (v : js A) : bool :=
  match v with
  | Val a => truthy a
  | Undefined | Null => false
  end.

(** [a || b] *)
Definition js_or {A} `{Truthy A} (a b : js A) : js A :=
  if js_truthy a then a else b.

(** [v !== undefined] *)
Definition is_defined {A} (v : js A) : bool :=
  match v with
  | Undefined => false
  | Null | Val _ => true
  end.

(** [v !== undefined ? v : old] *)
Definition if_defined {A} (v old : js A) : js A :=
  if is_defined v then v else old.

(** [a !== b] on text values *)
Definition strict_neq (a b : js string) : bool :=
  match a, b with
  | Undefined, Undefined => false
  | Null, Null => false
  | Val s, Val t => negb (s =? t)
  | _, _ => true
  end.

Definition oid := nat.

(** Values handed to [res.json]. *)
#[warnings="-register-all"]
Inductive jsval : Type :=
| JUndefined
| JNull
| JBool (b : bool)
| JNum (n : nat)
| JStr (s : string)
| JId (i : oid)
| JDate (t : nat)
| JArr (items : list jsval)
| JObj (fields : list (string * jsval)).

Definition of_text (v : js string) : jsval :=
  match v with
  | Undefined => JUndefined
  | Null => JNull
  | Val s => JStr s
  end.

Definition of_ids (v : js (list oid)) : jsval :=
  match v with
  | Undefined => JUndefined
  | Null => JNull
  | Val l => JArr (map JId l)
  end.

(** Property lookup on an object literal. *)
Fixpoint assoc (k : string) (fields : list (string * jsval)) : option jsval :=
  match fields with
  | [] => None
  | (k', v) :: rest => if k =? k' then Some v else assoc k rest
  end.

Definition prop (k : string) (v : jsval) : option jsval :=
  match v with
  | JObj fields => assoc k fields
  | _ => None
  end.

(** ** Documents and request bodies *)

Record User : Type := mkUser {
  u_id : oid;
  name : js string;
  email : js string;
  password : js string;
  role : js string;
  githubUsername : js string;
  assignedProjects : js (list oid);
  u_status : js string;
  u_createdAt : nat
}.

(** [models/Project.js] *)
Record Project : Type := mkProject {
  p_id : oid;
  projectName : js string;
  description : js string;
  githubRepo : js string;
  teamMembers : js (list oid);
  p_status : js string;
  p_createdAt : nat;
  p_updatedAt : nat
}.

(** [req.body] of the member routes *)
Record MemberBody : Type := mkMemberBody {
  b_name : js string;
  b_email : js string;
  b_role : js string;
  b_githubUsername : js string;
  b_assignedProjects : js (list oid);
  b_status : js string
}.

(** [req.body] of the project routes *)
Record ProjectBody : Type := mkProjectBody {
  b_projectName : js string;
  b_description : js string;
  b_githubRepo : js string;
  b_teamMembers : js (list oid);
  b_pstatus : js string
}.

Record Response : Type := mkResponse {
  statusCode : nat;
  body : jsval
}.

(** [res.json(b)] *)
Definition json (b : jsval) : Response := mkResponse 200 b.

(** [res.status(c).json({ success: false, error: msg })] *)
Definition failure (c : nat) (msg : string) : Response :=
  mkResponse c (JObj [("success", JBool false); ("error", JStr msg)]).

(** ** The entity store *)

Inductive StoreCall : Type :=
| UserFind
| UserFindOne (q : js string)
| UserFindById (id : oid)
| UserFindIn (ids : list oid)
| UserSave (id : oid)
| UserFindByIdAndDelete (id : oid)
| ProjectFind
| ProjectFindById (id : oid)
| ProjectSave (id : oid)
| ProjectFindByIdAndDelete (id : oid)
| PopulateTeamMembers (ids : list oid).

Record World : Type := mkWorld {
  users : list User;
  projects : list Project;
  nextId : oid;
  calls : list StoreCall
}.

Definition set_users (us : list User) (w : World) : World :=
  mkWorld us (projects w) (nextId w) (calls w).

Definition set_projects (ps : list Project) (w : World) : World :=
  mkWorld (users w) ps (nextId w) (calls w).

Definition log_call (c : StoreCall) (w : World) : World :=
  mkWorld (users w) (projects w) (nextId w) (calls w ++ [c]).

(** *** Email uniqueness *)

Definition has_email (e : string) (u : User) : bool :=
  match email u with
  | Val t => e =? t
  | Undefined | Null => false
  end.

(** Number of members whose email is [e]. *)
Definition email_count (e : string) (us : list User) : nat :=
  List.length (filter (has_email e) us).

(** No email is the email of two members. *)
Definition email_unique (us : list User) : Prop :=
  forall e : string, email_count e us <= 1.

Section Routes.

(** The serialization option of the connection (off unless configured).
    Off, a filter value [undefined] is sent as [null]; on, the key is
    dropped and the filter selects every document. *)
Variable ignoreUndefined : bool.

(** Schema validation of [models/User.js], run by [save()]. *)
Variable userValid : User -> bool.

(** The pre-save hook of [models/User.js]: the password that gets
    stored, for a new document ([true]) or a loaded one ([false]). *)
Variable savedPassword : bool -> User -> js string.

(** What [Date.now()] reads in the pre-save hook of a project whose
    construction read [now]. *)
Variable later : nat -> nat.

(** *** Queries as lists see them *)

(** A filter value against a stored text field. [{ field: null }]
    selects the documents whose field is [null] or missing. *)
Definition matches (q v : js string) : bool :=
  match q, v with
  | Val s, Val t => s =? t
  | Val _, _ => false
  | Undefined, Val _ => ignoreUndefined
  | Null, Val _ => false
  | _, _ => true
  end.

Definition find_by_email (q : js string) (us : list User) : option User :=
  find (fun u => matches q (email u)) us.

Definition find_user (id : oid) (us : list User) : option User :=
  find (fun u => Nat.eqb (u_id u) id) us.

Definition find_project (id : oid) (ps : list Project) : option Project :=
  find (fun p => Nat.eqb (p_id p) id) ps.

Definition mem_id (i : oid) (ids : list oid) : bool :=
  existsb (Nat.eqb i) ids.

(** [{ _id: { $in: ids } }] *)
Definition users_in (ids : list oid) (us : list User) : list User :=
  filter (fun u => mem_id (u_id u) ids) us.

(** Replacing, and removing, the first document a predicate selects. *)
Fixpoint replace_first {A} (sel : A -> bool) (d : A) (l : list A) : list A :=
  match l with
  | [] => []
  | x :: rest => if sel x then d :: rest else x :: replace_first sel d rest
  end.

Fixpoint remove_first {A} (sel : A -> bool) (l : list A) : list A :=
  match l with
  | [] => []
  | x :: rest => if sel x then rest else x :: remove_first sel rest
  end.

(** [.sort({ createdAt: -1 })] *)
Fixpoint insert_desc {A} (key : A -> nat) (a : A) (l : list A) : list A :=
  match l with
  | [] => [a]
  | b :: rest =>
      if Nat.leb (key b) (key a) then a :: b :: rest
      else b :: insert_desc key a rest
  end.

Definition sort_desc {A} (key : A -> nat) (l : list A) : list A :=
  fold_right (insert_desc key) [] l.

(** The projection ['-password']. *)
Definition without_password (u : User) : User :=
  mkUser (u_id u) (name u) (email u) Undefined (role u) (githubUsername u)
         (assignedProjects u) (u_status u) (u_createdAt u).

(** *** Validators of [models/Project.js] *)

(** [required: true] on a String path *)
Definition required_ok (v : js string) : bool :=
  match v with
  | Val s => truthy s
  | Undefined | Null => false
  end.

Definition status_enum : list string := ["active"; "inactive"; "completed"].

(** [enum: [...]] on a String path; an unset path is not checked. *)
Definition enum_ok (allowed : list string) (v : js string) : bool :=
  match v with
  | Val s => existsb (String.eqb s) allowed
  | Undefined | Null => true
  end.

Definition projectValid (p : Project) : bool :=
  required_ok (projectName p) && required_ok (githubRepo p)
  && enum_ok status_enum (p_status p).

(** [projectSchema.pre('save', ...)]: [this.updatedAt = Date.now()] *)
Definition pre_save (now : nat) (p : Project) : Project :=
  mkProject (p_id p) (projectName p) (description p) (githubRepo p)
            (teamMembers p) (p_status p) (p_createdAt p) now.

(** ** Awaited calls: state and exceptions *)

Inductive Result (A : Type) : Type :=
| Ok (a : A)
| Throw.
Arguments Ok {A} a.
Arguments Throw {A}.

Definition M (A : Type) : Type := World -> Result A * World.

Definition ret {A} (a : A) : M A := fun w => (Ok a, w).

Definition bind {A B} (m : M A) (k : A -> M B) : M B :=
  fun w =>
    match m w with
    | (Ok a, w') => k a w'
    | (Throw, w') => (Throw, w')
    end.

Notation "x <- m ;; k" := (bind m (fun x => k))
  (at level 61, m at next level, right associativity).
Notation "m ;;; k" := (bind m (fun _ => k))
  (at level 61, right associativity).

(** A read of the store: logged, state otherwise untouched. *)
Definition query {A} (c : StoreCall) (f : World -> A) : M A :=
  fun w => (Ok (f w), log_call c w).

(** [try { ... } catch (error) { res.status(500).json(...) }] *)
Definition try_catch (msg : string) (m : M Response) : World -> Response * World :=
  fun w =>
    match m w with
    | (Ok r, w') => (r, w')
    | (Throw, w') => (failure 500 msg, w')
    end.

(** [new Model(...)]: the id is drawn when the document is built. *)
Definition fresh_id : M oid :=
  fun w => (Ok (nextId w), mkWorld (users w) (projects w) (S (nextId w)) (calls w)).

Definition User_find : M (list User) :=
  query UserFind (fun w => sort_desc u_createdAt (map without_password (users w))).

Definition User_findOne (q : js string) : M (option User) :=
  query (UserFindOne q) (fun w => find_by_email q (users w)).

Definition User_findById (id : oid) : M (option User) :=
  query (UserFindById id) (fun w => find_user id (users w)).

(** [User.findById(id, '-password')] *)
Definition User_findById_public (id : oid) : M (option User) :=
  query (UserFindById id)
        (fun w => option_map without_password (find_user id (users w))).

Definition User_find_in (ids : list oid) : M (list User) :=
  query (UserFindIn ids) (fun w => users_in ids (users w)).

Definition User_findByIdAndDelete (id : oid) : M unit :=
  fun w => (Ok tt, log_call (UserFindByIdAndDelete id)
                     (set_users (remove_first (fun u => Nat.eqb (u_id u) id) (users w)) w)).

Definition Project_find : M (list Project) :=
  query ProjectFind (fun w => sort_desc p_createdAt (projects w)).

Definition Project_findById (id : oid) : M (option Project) :=
  query (ProjectFindById id) (fun w => find_project id (projects w)).

Definition Project_findByIdAndDelete (id : oid) : M unit :=
  fun w => (Ok tt, log_call (ProjectFindByIdAndDelete id)
                     (set_projects (remove_first (fun p => Nat.eqb (p_id p) id) (projects w)) w)).

(** [newProject.save()]: hook (at the time [now] that it reads),
    validation, insert. *)
Definition Project_save_new (now : nat) (p : Project) : M Project :=
  fun w =>
    let p' := pre_save now p in
    if projectValid p'
    then (Ok p', log_call (ProjectSave (p_id p)) (set_projects (projects w ++ [p']) w))
    else (Throw, log_call (ProjectSave (p_id p)) w).

(** [project.save()] on a loaded document: hook, validation of the
    document, replacement of the stored one. *)
Definition Project_save (now : nat) (p : Project) : M Project :=
  fun w =>
    let p' := pre_save now p in
    if projectValid p'
    then (Ok p', log_call (ProjectSave (p_id p))
                   (set_projects (replace_first (fun x => Nat.eqb (p_id x) (p_id p)) p' (projects w)) w))
    else (Throw, log_call (ProjectSave (p_id p)) w).

(** [.populate('teamMembers', 'name email githubUsername')]: every id
    that resolves becomes a summary record, the others are dropped. *)
Definition summary (u : User) : jsval :=
  JObj [("_id", JId (u_id u));
        ("name", of_text (name u));
        ("email", of_text (email u));
        ("githubUsername", of_text (githubUsername u))].

Fixpoint resolve (ids : list oid) (us : list User) : list jsval :=
  match ids with
  | [] => []
  | i :: rest =>
      match find_user i us with
      | Some u => summary u :: resolve rest us
      | None => resolve rest us
      end
  end.

Definition populated (tm : js (list oid)) (us : list User) : jsval :=
  match tm with
  | Undefined => JUndefined
  | Null => JNull
  | Val ids => JArr (resolve ids us)
  end.

Definition ids_of (tm : js (list oid)) : list oid :=
  match tm with
  | Val ids => ids
  | Undefined | Null => []
  end.

Definition populate (tm : js (list oid)) : M jsval :=
  query (PopulateTeamMembers (ids_of tm)) (fun w => populated tm (users w)).

(** [teamMembers && teamMembers.length > 0] *)
Definition non_empty (tm : js (list oid)) : bool :=
  match tm with
  | Val (_ :: _) => true
  | _ => false
  end.

(** [userRole !== 'admin'] on [req.headers['user-role']] *)
Definition not_admin (userRole : option string) : bool :=
  match userRole with
  | Some r => negb (r =? "admin")
  | None => true
  end.

Definition access_denied : Response := failure 403 "Access denied. Admin only.".

(** ** Sample requests and stores *)

(** A schema that asks for a name and an email. *)
Definition name_and_email_required (u : User) : bool :=
  required_ok (name u) && required_ok (email u).

(** A hook that hashes the password of a new member and leaves a
    loaded one alone. *)
Definition hash_when_new (isNew : bool) (u : User) : js string :=
  if isNew then Val "$2b$10$hash" else password u.

(** A pre-save hook that runs three milliseconds into the request. *)
Definition three_ms_later (t : nat) : nat := t + 3.

Definition empty_store : World := mkWorld [] [] 0 [].

(** [{ email: "new@team.org" }] *)
Definition body_without_name : MemberBody :=
  mkMemberBody Undefined (Val "new@team.org") Undefined Undefined Undefined Undefined.

(** [{ name: "Ann" }] *)
Definition body_without_email : MemberBody :=
  mkMemberBody (Val "Ann") Undefined Undefined Undefined Undefined Undefined.

(** [{ status: "inactive" }] *)
Definition body_only_inactive : MemberBody :=
  mkMemberBody Undefined Undefined Undefined Undefined Undefined (Val "inactive").

(** A member document that has no email field. *)
Definition ann : User :=
  mkUser 1 (Val "Ann") Undefined (Val "x") (Val "contributor") (Val "")
         (Val []) (Val "active") 10.

Definition bob : User :=
  mkUser 2 (Val "Bob") (Val "bob@team.org") (Val "y") (Val "contributor")
         (Val "bobhub") (Val [7]) (Val "active") 20.

Definition store_ann_bob : World := mkWorld [ann; bob] [] 3 [].

Definition store_bob : World := mkWorld [bob] [] 3 [].

(** [{ name: "", githubUsername: "", assignedProjects: [] }] *)
Definition body_blank_fields : MemberBody :=
  mkMemberBody (Val "") Undefined Undefined (Val "") (Val []) Undefined.

(** [{ name: "Eve", email: "eve@team.org", role: "admin",
       assignedProjects: [<an id of no project>] }] *)
Definition body_eve : MemberBody :=
  mkMemberBody (Val "Eve") (Val "eve@team.org") (Val "admin") Undefined
               (Val [99]) Undefined.

Definition site : Project :=
  mkProject 5 (Val "Site") (Val "old text") (Val "org/site") (Val [2])
            (Val "active") 30 30.

Definition store_site : World := mkWorld [bob] [site] 6 [].

(** [{ projectName: "", description: "", teamMembers: [] }] *)
Definition pbody_blank_fields : ProjectBody :=
  mkProjectBody (Val "") (Val "") Undefined (Val []) Undefined.

(** [{ projectName: "X", githubRepo: "r", teamMembers: [<unknown id>] }] *)
Definition pbody_unknown_member : ProjectBody :=
  mkProjectBody (Val "X") Undefined (Val "r") (Val [42]) Undefined.

(** [{ projectName: "X", githubRepo: "r", teamMembers: [<Bob's id>] }] *)
Definition pbody_team_bob : ProjectBody :=
  mkProjectBody (Val "X") Undefined (Val "r") (Val [2]) Undefined.

(** [{ projectName: "X", githubRepo: "r", status: "paused" }] *)
Definition pbody_paused : ProjectBody :=
  mkProjectBody (Val "X") Undefined (Val "r") Undefined (Val "paused").

(** [{ name: "Bobby", email: "bob@team.org" }] *)
Definition body_bob_again : MemberBody :=
  mkMemberBody (Val "Bobby") (Val "bob@team.org") Undefined Undefined Undefined
               Undefined.

Definition carol : User :=
  mkUser 3 (Val "Carol") (Val "carol@team.org") (Val "z") (Val "contributor")
         (Val "") (Val []) (Val "active") 25.

Definition store_bob_carol : World := mkWorld [bob; carol] [] 4 [].

(** ** Route handlers *)

Definition Handler : Type := World -> Response * World.

(** The document as the pre-save hook leaves it. *)
Definition pre_save_user (isNew : bool) (u : User) : User :=
  mkUser (u_id u) (name u) (email u) (savedPassword isNew u) (role u)
         (githubUsername u) (assignedProjects u) (u_status u) (u_createdAt u).

(** [newMember.save()]: validation, hook, insert. *)
Definition User_save_new (u : User) : M User :=
  fun w =>
    let u' := pre_save_user true u in
    if userValid u
    then (Ok u', log_call (UserSave (u_id u)) (set_users (users w ++ [u']) w))
    else (Throw, log_call (UserSave (u_id u)) w).

(** [member.save()] on a loaded document: validation, hook,
    replacement of the stored one. *)
Definition User_save (u : User) : M User :=
  fun w =>
    let u' := pre_save_user false u in
    if userValid u
    then (Ok u', log_call (UserSave (u_id u))
                   (set_users (replace_first (fun x => Nat.eqb (u_id x) (u_id u)) u'
                                             (users w)) w))
    else (Throw, log_call (UserSave (u_id u)) w).

(** *** Team management routes ([team.js]) *)

Definition member_fields (m : User) : list (string * jsval) :=
  [("_id", JId (u_id m));
   ("name", of_text (name m));
   ("email", of_text (email m));
   ("role", of_text (role m));
   ("githubUsername", of_text (githubUsername m));
   ("assignedProjects", of_ids (assignedProjects m));
   ("status", of_text (u_status m))].

(** The record built by [members.map(member => ...)]. *)
Definition member_row (m : User) : jsval :=
  JObj [("_id", JId (u_id m));
        ("name", of_text (name m));
        ("email", of_text (email m));
        ("role", of_text (role m));
        ("githubUsername", of_text (js_or (githubUsername m) (Val "")));
        ("assignedProjects", of_ids (js_or (assignedProjects m) (Val [])));
        ("status", of_text (js_or (u_status m) (Val "active")));
        ("joinedDate", JDate (u_createdAt m))].

(** [router.get('/members', ...)] *)
Definition get_members (userRole : option string) : Handler :=
  try_catch "Failed to fetch team members"
    (if not_admin userRole then ret access_denied else
     members <- User_find ;;
     ret (json (JObj [("success", JBool true);
                      ("members", JArr (map member_row members))]))).

Definition defaultPassword : string := "password123".

(** [new User({ ... })] of the create route. *)
Definition new_member (id : oid) (b : MemberBody) (now : nat) : User :=
  mkUser id
         (b_name b)
         (b_email b)
         (Val defaultPassword)
         (js_or (b_role b) (Val "contributor"))
         (js_or (b_githubUsername b) (Val ""))
         (js_or (b_assignedProjects b) (Val []))
         (js_or (b_status b) (Val "active"))
         now.

(** [router.post('/members', ...)] *)
Definition post_members (userRole : option string) (b : MemberBody) (now : nat)
  : Handler :=
  try_catch "Failed to add team member"
    (if not_admin userRole then ret access_denied else
     existingUser <- User_findOne (b_email b) ;;
     match existingUser with
     | Some _ => ret (failure 400 "User with this email already exists")
     | None =>
         id <- fresh_id ;;
         newMember <- User_save_new (new_member id b now) ;;
         ret (json (JObj [("success", JBool true);
                          ("message", JStr "Team member added successfully");
                          ("member", JObj (member_fields newMember))]))
     end).

(** The assignments under [// Update fields]. *)
Definition update_member (b : MemberBody) (member : User) : User :=
  mkUser (u_id member)
         (js_or (b_name b) (name member))
         (js_or (b_email b) (email member))
         (password member)
         (js_or (b_role b) (role member))
         (if_defined (b_githubUsername b) (githubUsername member))
         (if_defined (b_assignedProjects b) (assignedProjects member))
         (js_or (b_status b) (u_status member))
         (u_createdAt member).

(** [router.put('/members/:id', ...)] *)
Definition put_member (userRole : option string) (id : oid) (b : MemberBody)
  : Handler :=
  try_catch "Failed to update team member"
    (if not_admin userRole then ret access_denied else
     found <- User_findById id ;;
     match found with
     | None => ret (failure 404 "Team member not found")
     | Some member =>
         let update :=
           saved <- User_save (update_member b member) ;;
           ret (json (JObj [("success", JBool true);
                            ("message", JStr "Team member updated successfully");
                            ("member", JObj (member_fields saved))])) in
         if strict_neq (b_email b) (email member) then
           existingUser <- User_findOne (b_email b) ;;
           match existingUser with
           | Some _ => ret (failure 400 "Email already in use by another user")
           | None => update
           end
         else update
     end).

(** [router.delete('/members/:id', ...)] *)
Definition delete_member (userRole : option string) (id : oid) : Handler :=
  try_catch "Failed to remove team member"
    (if not_admin userRole then ret access_denied else
     found <- User_findById id ;;
     match found with
     | None => ret (failure 404 "Team member not found")
     | Some _ =>
         User_findByIdAndDelete id ;;;
         ret (json (JObj [("success", JBool true);
                          ("message", JStr "Team member removed successfully")]))
     end).

(** [router.get('/members/:id', ...)] *)
Definition get_member (userRole : option string) (id : oid) : Handler :=
  try_catch "Failed to fetch team member"
    (if not_admin userRole then ret access_denied else
     found <- User_findById_public id ;;
     match found with
     | None => ret (failure 404 "Team member not found")
     | Some member =>
         ret (json (JObj [("success", JBool true);
                          ("member",
                           JObj (member_fields member
                                 ++ [("joinedDate", JDate (u_createdAt member))]))]))
     end).

(** *** The recommendations route *)

Definition recommendation (id : nat) (title descr category : string) : jsval :=
  JObj [("id", JNum id); ("title", JStr title);
        ("description", JStr descr); ("category", JStr category)].

Definition recommendations : jsval :=
  JArr [recommendation 1 "GitHub Projects Integration"
          "Enable board view to better track lagging tasks." "Platform";
        recommendation 2 "Pair Programming Session"
          "Amit Singh is lagging; schedule a pair coding session." "Feedback";
        recommendation 3 "Strict PR Guidelines"
          "Implement smaller PRs to reduce code review delay." "Workflow";
        recommendation 4 "Daily Standup Sync"
          "Improve communication for contributors with high delays." "Workflow"].

(** [router.get('/', (req, res) => ...)] of the recommendations router. *)
Definition get_recommendations : Handler :=
  fun w => (json recommendations, w).

(** *** Project management routes *)

(** [Project.find().populate(...)]: one populate for the whole result. *)
Definition populate_all (ps : list Project) : M (list (Project * jsval)) :=
  query (PopulateTeamMembers (List.concat (map (fun p => ids_of (teamMembers p)) ps)))
        (fun w => map (fun p => (p, populated (teamMembers p) (users w))) ps).

Definition project_head (p : Project) (team : jsval) : list (string * jsval) :=
  [("_id", JId (p_id p));
   ("projectName", of_text (projectName p));
   ("description", of_text (description p));
   ("githubRepo", of_text (githubRepo p));
   ("teamMembers", team);
   ("status", of_text (p_status p))].

(** [router.get('/', ...)] *)
Definition get_projects (userRole : option string) : Handler :=
  try_catch "Failed to fetch projects"
    (if not_admin userRole then ret access_denied else
     found <- Project_find ;;
     rows <- populate_all found ;;
     ret (json (JObj
       [("success", JBool true);
        ("projects",
         JArr (map (fun r => JObj (project_head (fst r) (snd r)
                                   ++ [("createdAt", JDate (p_createdAt (fst r)));
                                       ("updatedAt", JDate (p_updatedAt (fst r)))]))
                   rows))]))).

(** [new Project({ ... })] of the create route; both timestamps default
    to [Date.now] at construction. *)
Definition new_project (id : oid) (b : ProjectBody) (now : nat) : Project :=
  mkProject id
            (b_projectName b)
            (js_or (b_description b) (Val ""))
            (b_githubRepo b)
            (js_or (b_teamMembers b) (Val []))
            (js_or (b_pstatus b) (Val "active"))
            now
            now.

Definition members_not_found : Response :=
  failure 400 "One or more team members not found".

(** [router.post('/', ...)] *)
Definition post_projects (userRole : option string) (b : ProjectBody) (now : nat)
  : Handler :=
  try_catch "Failed to create project"
    (if not_admin userRole then ret access_denied else
     if negb (js_truthy (b_projectName b)) || negb (js_truthy (b_githubRepo b))
     then ret (failure 400 "Project name and GitHub repository are required")
     else
       let create :=
         id <- fresh_id ;;
         newProject <- Project_save_new (later now) (new_project id b now) ;;
         team <- populate (teamMembers newProject) ;;
         ret (json (JObj
           [("success", JBool true);
            ("message", JStr "Project created successfully");
            ("project",
             JObj (project_head newProject team
                   ++ [("createdAt", JDate (p_createdAt newProject))]))])) in
       if non_empty (b_teamMembers b) then
         validMembers <- User_find_in (ids_of (b_teamMembers b)) ;;
         if negb (Nat.eqb (List.length validMembers) (List.length (ids_of (b_teamMembers b))))
         then ret members_not_found
         else create
       else create).

(** The assignments under [// Update fields]. *)
Definition update_project (b : ProjectBody) (project : Project) : Project :=
  mkProject (p_id project)
            (if js_truthy (b_projectName b) then b_projectName b
             else projectName project)
            (if is_defined (b_description b) then b_description b
             else description project)
            (if js_truthy (b_githubRepo b) then b_githubRepo b
             else githubRepo project)
            (if is_defined (b_teamMembers b) then b_teamMembers b
             else teamMembers project)
            (if js_truthy (b_pstatus b) then b_pstatus b else p_status project)
            (p_createdAt project)
            (p_updatedAt project).

(** [router.put('/:id', ...)] *)
Definition put_project (userRole : option string) (id : oid) (b : ProjectBody)
  (now : nat) : Handler :=
  try_catch "Failed to update project"
    (if not_admin userRole then ret access_denied else
     found <- Project_findById id ;;
     match found with
     | None => ret (failure 404 "Project not found")
     | Some project =>
         let update :=
           saved <- Project_save now (update_project b project) ;;
           team <- populate (teamMembers saved) ;;
           ret (json (JObj
             [("success", JBool true);
              ("message", JStr "Project updated successfully");
              ("project",
               JObj (project_head saved team
                     ++ [("updatedAt", JDate (p_updatedAt saved))]))])) in
         if non_empty (b_teamMembers b) then
           validMembers <- User_find_in (ids_of (b_teamMembers b)) ;;
           if negb (Nat.eqb (List.length validMembers) (List.length (ids_of (b_teamMembers b))))
           then ret members_not_found
           else update
         else update
     end).

(** [router.delete('/:id', ...)] *)
Definition delete_project (userRole : option string) (id : oid) : Handler :=
  try_catch "Failed to delete project"
    (if not_admin userRole then ret access_denied else
     found <- Project_findById id ;;
     match found with
     | None => ret (failure 404 "Project not found")
     | Some _ =>
         Project_findByIdAndDelete id ;;;
         ret (json (JObj [("success", JBool true);
                          ("message", JStr "Project deleted successfully")]))
     end).

(** [router.get('/:id', ...)] *)
Definition get_project (userRole : option string) (id : oid) : Handler :=
  try_catch "Failed to fetch project"
    (if not_admin userRole then ret access_denied else
     found <- Project_findById id ;;
     match found with
     | None => ret (failure 404 "Project not found")
     | Some project =>
         team <- populate (teamMembers project) ;;
         ret (json (JObj
           [("success", JBool true);
            ("project",
             JObj (project_head project team
                   ++ [("createdAt", JDate (p_createdAt project));
                       ("updatedAt", JDate (p_updatedAt project))]))]))
     end).

(** *** The member and project operations, as the routers dispatch them *)

Inductive Operation : Type :=
| ListMembers
| CreateMember (b : MemberBody)
| GetMember (id : oid)
| UpdateMember (id : oid) (b : MemberBody)
| DeleteMember (id : oid)
| ListProjects
| CreateProject (b : ProjectBody)
| GetProject (id : oid)
| UpdateProject (id : oid) (b : ProjectBody)
| DeleteProject (id : oid).

(** [userRole] is the [user-role] header, [now] what [Date.now()] reads. *)
Definition handle (userRole : option string) (op : Operation) (now : nat)
  : Handler :=
  match op with
  | ListMembers => get_members userRole
  | CreateMember b => post_members userRole b now
  | GetMember id => get_member userRole id
  | UpdateMember id b => put_member userRole id b
  | DeleteMember id => delete_member userRole id
  | ListProjects => get_projects userRole
  | CreateProject b => post_projects userRole b now
  | GetProject id => get_project userRole id
  | UpdateProject id b => put_project userRole id b now
  | DeleteProject id => delete_project userRole id
  end.

(** ** Properties of stores and responses *)

(** Number of members a lookup by email selects. *)
Definition selected (q : js string) (us : list User) : nat :=
  List.length (filter (fun u => matches q (email u)) us).

(** Every listed id is the id of a stored member. *)
Definition all_resolve (ids : list oid) (us : list User) : Prop :=
  forall i, In i ids -> exists u, In u us /\ u_id u = i.

(** [body.success === flag] *)
Definition has_success (flag : bool) (r : Response) : Prop :=
  prop "success" (body r) = Some (JBool flag).

(** The shape [{ success: false, error: <message> }]. *)
Definition is_failure_body (v : jsval) : Prop :=
  exists msg, v = JObj [("success", JBool false); ("error", JStr msg)].

(** An object whose first property is [success: true]. *)
Definition is_success_body (v : jsval) : Prop :=
  exists payload, v = JObj (("success", JBool true) :: payload).

(** What one request can do to the members collection. *)
Inductive users_step (us : list User) : list User -> Prop :=
| step_same : users_step us us
| step_insert (u : User) :
    find_by_email (email u) us = None ->
    users_step us (us ++ [u])
| step_replace (sel : User -> bool) (m d : User) :
    find sel us = Some m ->
    email d = email m \/ find_by_email (email d) us = None ->
    users_step us (replace_first sel d us)
| step_remove (sel : User -> bool) :
    users_step us (remove_first sel us).

Definition email_conflict_on_create : Response :=
  failure 400 "User with this email already exists".

Definition email_conflict_on_update : Response :=
  failure 400 "Email already in use by another user".

(** What the update of a member does field by field: [githubUsername]
    and [assignedProjects] follow presence, [name], [role] and [status]
    follow truthiness. *)
Definition member_update_rules (b : MemberBody) (old new : User) : Prop :=
  (b_githubUsername b <> Undefined -> githubUsername new = b_githubUsername b)
  /\ (b_githubUsername b = Undefined -> githubUsername new = githubUsername old)
  /\ (b_assignedProjects b <> Undefined ->
      assignedProjects new = b_assignedProjects b)
  /\ (b_assignedProjects b = Undefined ->
      assignedProjects new = assignedProjects old)
  /\ (js_truthy (b_name b) = true -> name new = b_name b)
  /\ (js_truthy (b_name b) = false -> name new = name old)
  /\ (js_truthy (b_role b) = true -> role new = b_role b)
  /\ (js_truthy (b_role b) = false -> role new = role old)
  /\ (js_truthy (b_status b) = true -> u_status new = b_status b)
  /\ (js_truthy (b_status b) = false -> u_status new = u_status old).

(** The same for a project: [description] and [teamMembers] follow
    presence, [projectName], [githubRepo] and [status] follow truthiness. *)
Definition project_update_rules (b : ProjectBody) (old new : Project) : Prop :=
  (b_description b = Val "" -> description new = Val "")
  /\ (b_description b <> Undefined -> description new = b_description b)
  /\ (b_description b = Undefined -> description new = description old)
  /\ (b_teamMembers b <> Undefined -> teamMembers new = b_teamMembers b)
  /\ (b_teamMembers b = Undefined -> teamMembers new = teamMembers old)
  /\ (js_truthy (b_projectName b) = true -> projectName new = b_projectName b)
  /\ (js_truthy (b_projectName b) = false -> projectName new = projectName old)
  /\ (js_truthy (b_githubRepo b) = true -> githubRepo new = b_githubRepo b)
  /\ (js_truthy (b_githubRepo b) = false -> githubRepo new = githubRepo old)
  /\ (js_truthy (b_pstatus b) = true -> p_status new = b_pstatus b)
  /\ (js_truthy (b_pstatus b) = false -> p_status new = p_status old).

(** The four records of the recommendations list. *)
Definition is_recommendation (v : jsval) : Prop :=
  exists id title descr category, v = recommendation id title descr category.

(** A create request on the empty store that goes all the way to
    [save()], whose validation alone decides between 200 and 500. *)
Definition reaches_save (b : MemberBody) : Prop :=
  let r := fst (post_members (Some "admin") b 1000 empty_store) in
  let w' := snd (post_members (Some "admin") b 1000 empty_store) in
  calls w' = [UserFindOne (b_email b); UserSave 0]
  /\ ((userValid (new_member 0 b 1000) = true
       /\ statusCode r = 200
       /\ users w' = [pre_save_user true (new_member 0 b 1000)])
      \/ (userValid (new_member 0 b 1000) = false
          /\ r = failure 500 "Failed to add team member"
          /\ users w' = [])).

(** *** Kinds of operations *)

Definition is_member_op (op : Operation) : bool :=
  match op with
  | ListMembers | CreateMember _ | GetMember _ | UpdateMember _ _
  | DeleteMember _ => true
  | _ => false
  end.

(** The [GET] routes. *)
Definition is_read (op : Operation) : bool :=
  match op with
  | ListMembers | GetMember _ | ListProjects | GetProject _ => true
  | _ => false
  end.

(** Does [k] name a property anywhere inside [v]? *)
Fixpoint has_key (k : string) (v : jsval) : bool :=
  match v with
  | JArr items =>
      (fix any (l : list jsval) : bool :=
         match l with
         | [] => false
         | x :: rest => has_key k x || any rest
         end) items
  | JObj fields =>
      (fix any (l : list (string * jsval)) : bool :=
         match l with
         | [] => false
         | (k', x) :: rest => (k' =? k) || has_key k x || any rest
         end) fields
  | _ => false
  end.

(** Ids are unique in each collection and older than the next id that
    [new Model(...)] draws. *)
Definition ids_fresh (w : World) : Prop :=
  NoDup (map u_id (users w))
  /\ NoDup (map p_id (projects w))
  /\ (forall u, In u (users w) -> u_id u < nextId w)
  /\ (forall p, In p (projects w) -> p_id p < nextId w).

(** Every stored project passes the validators of its schema. *)
Definition projects_valid (ps : list Project) : Prop :=
  Forall (fun p => projectValid p = true) ps.

(** Newest first. *)
Definition newest_first {A} (key : A -> nat) (l : list A) : Prop :=
  StronglySorted (fun a b => key b <= key a) l.

Definition b2n (b : bool) : nat := if b then 1 else 0.

(** ** Access guard *)

Lemma not_admin_spec (userRole : option string) :
  not_admin userRole = true <-> userRole <> Some "admin".
Proof.
  destruct userRole as [r|]; simpl.
  - rewrite negb_true_iff. split.
    + intros E [= ->]. discriminate.
    + intros N. destruct (String.eqb_spec r "admin"); [subst; congruence | reflexivity].
  - split; [discriminate | reflexivity].
Qed.

(** C1. Whatever the member or project operation, a request whose
    [user-role] header is absent or differs from the literal "admin" is
    answered 403 with [success: false], and nothing is read from or
    written to the store: both collections and the log of store calls
    are as before. *)
Theorem access_guard_denies :
  forall (userRole : option string) (op : Operation) (now : nat) (w : World),
    userRole <> Some "admin" ->
    let r := fst (handle userRole op now w) in
    let w' := snd (handle userRole op now w) in
    statusCode r = 403
    /\ has_success false r
    /\ r = access_denied
    /\ calls w' = calls w
    /\ users w' = users w
    /\ projects w' = projects w.
Proof.
  intros userRole op now w H.
  apply not_admin_spec in H.
  assert (E : handle userRole op now w = (access_denied, w)).
  { destruct op; simpl;
      unfold get_members, post_members, get_member, put_member, delete_member,
             get_projects, post_projects, get_project, put_project,
             delete_project, try_catch;
      rewrite H; reflexivity. }
  cbv zeta. rewrite E. simpl. repeat split; reflexivity.
Qed.

(** ** Lookups by email *)

Lemma matches_refl (q : js string) : matches q q = true.
Proof. destruct q; simpl; auto using String.eqb_refl. Qed.

Lemma matches_val (e : string) (v : js string) :
  matches (Val e) v = true <-> v = Val e.
Proof.
  destruct v as [| |t]; simpl; try (split; discriminate).
  rewrite String.eqb_eq. split; [now intros -> | now intros [= ->]].
Qed.

Lemma strict_neq_spec (a b : js string) : strict_neq a b = true <-> a <> b.
Proof.
  destruct a as [| |s], b as [| |t]; simpl;
    try (split; [discriminate | congruence]);
    try (split; [congruence | intros N; now elim N]).
  rewrite negb_true_iff. destruct (String.eqb_spec s t); split; congruence.
Qed.

Lemma email_count_selected (e : string) (us : list User) :
  email_count e us = selected (Val e) us.
Proof. reflexivity. Qed.

Lemma selected_cons (q : js string) (u : User) (us : list User) :
  selected q (u :: us) = b2n (matches q (email u)) + selected q us.
Proof. unfold selected. simpl. now destruct (matches q (email u)). Qed.

Lemma selected_app (q : js string) (us vs : list User) :
  selected q (us ++ vs) = selected q us + selected q vs.
Proof. unfold selected. now rewrite filter_app, length_app. Qed.

Lemma find_by_email_none_count (q : js string) (us : list User) :
  find_by_email q us = None -> selected q us = 0.
Proof.
  induction us as [|u us IH]; [reflexivity|].
  unfold find_by_email. simpl. rewrite selected_cons.
  destruct (matches q (email u)); [discriminate|]. intros H. simpl. now apply IH.
Qed.

Lemma find_by_email_some (q : js string) (u : User) (us : list User) :
  In u us -> matches q (email u) = true -> find_by_email q us <> None.
Proof.
  intros I E N. unfold find_by_email in N.
  pose proof (find_none _ _ N u I) as C. simpl in C. congruence.
Qed.

Lemma selected_remove_first (q : js string) (sel : User -> bool) (us : list User) :
  selected q (remove_first sel us) <= selected q us.
Proof.
  induction us as [|u us IH]; simpl; [lia|].
  destruct (sel u); rewrite !selected_cons; lia.
Qed.

Lemma selected_replace_first (q : js string) (sel : User -> bool) (m d : User)
  (us : list User) :
  find sel us = Some m ->
  selected q (replace_first sel d us) + b2n (matches q (email m))
  = selected q us + b2n (matches q (email d)).
Proof.
  induction us as [|u us IH]; simpl; [discriminate|].
  destruct (sel u).
  - intros [= ->]. rewrite !selected_cons. lia.
  - intros F. rewrite !selected_cons. specialize (IH F). lia.
Qed.

Lemma users_step_unique (us us' : list User) :
  email_unique us -> users_step us us' -> email_unique us'.
Proof.
  intros U St e. specialize (U e). rewrite email_count_selected in *.
  destruct St as [|u N|sel m d F [E|N]|sel].
  - exact U.
  - rewrite selected_app, selected_cons.
    change (selected (Val e) []) with 0.
    destruct (matches (Val e) (email u)) eqn:Q; simpl; [|lia].
    apply matches_val in Q. rewrite Q in N.
    rewrite (find_by_email_none_count _ _ N). lia.
  - pose proof (selected_replace_first (Val e) sel m d us F) as R.
    rewrite E in R. lia.
  - pose proof (selected_replace_first (Val e) sel m d us F) as R.
    destruct (matches (Val e) (email d)) eqn:Q; simpl in R; [|lia].
    apply matches_val in Q. rewrite Q in N.
    rewrite (find_by_email_none_count _ _ N) in R.
    destruct (matches (Val e) (email m)); simpl in R; lia.
  - pose proof (selected_remove_first (Val e) sel us). lia.
Qed.

(** ** Running a handler *)

Ltac unfold_routes :=
  unfold handle, get_members, post_members, get_member, put_member,
         delete_member, get_projects, post_projects, get_project, put_project,
         delete_project, try_catch, bind, ret, query, fresh_id,
         User_find, User_findOne, User_findById, User_findById_public,
         User_find_in,
         User_findByIdAndDelete, User_save_new, User_save,
         Project_find, Project_findById, Project_findByIdAndDelete,
         Project_save_new, Project_save, populate, populate_all.

Ltac branch :=
  match goal with
  | |- context [not_admin ?r] => destruct (not_admin r) eqn:?
  | |- context [find_user ?i ?l] => destruct (find_user i l) eqn:?
  | |- context [find_project ?i ?l] => destruct (find_project i l) eqn:?
  | |- context [strict_neq ?a ?b] => destruct (strict_neq a b) eqn:?
  | |- context [find_by_email ?q ?l] => destruct (find_by_email q l) eqn:?
  | |- context [userValid ?u] => destruct (userValid u) eqn:?
  | |- context [projectValid ?u] => destruct (projectValid u) eqn:?
  | |- context [non_empty ?t] => destruct (non_empty t) eqn:?
  | |- context [Nat.eqb (List.length ?a) (List.length ?b)] =>
      destruct (Nat.eqb (List.length a) (List.length b)) eqn:?
  | |- context [js_truthy (b_projectName ?b)] =>
      destruct (js_truthy (b_projectName b)) eqn:?
  | |- context [js_truthy (b_githubRepo ?b)] =>
      destruct (js_truthy (b_githubRepo b)) eqn:?
  end.

Ltac run := unfold_routes; simpl; repeat (branch; simpl).

Lemma find_user_id (id : oid) (us : list User) (m : User) :
  find_user id us = Some m -> u_id m = id.
Proof.
  intros F. apply find_some in F as [_ E]. now apply Nat.eqb_eq in E.
Qed.

Lemma find_user_self (id : oid) (us : list User) (m : User) :
  find_user id us = Some m ->
  find (fun x => Nat.eqb (u_id x) (u_id m)) us = Some m.
Proof. intros F. now rewrite (find_user_id _ _ _ F). Qed.

Lemma update_member_email (b : MemberBody) (m : User) (us : list User) :
  (strict_neq (b_email b) (email m) = true -> find_by_email (b_email b) us = None) ->
  email (update_member b m) = email m
  \/ find_by_email (email (update_member b m)) us = None.
Proof.
  intros H. simpl. unfold js_or. destruct (js_truthy (b_email b)); [|now left].
  destruct (strict_neq (b_email b) (email m)) eqn:E.
  - right. now apply H.
  - left. destruct (b_email b), (email m); simpl in E; try discriminate; auto.
    apply negb_false_iff, String.eqb_eq in E. now subst.
Qed.

(** Every request moves the members collection by one [users_step]. *)
Lemma handle_users_step (userRole : option string) (op : Operation) (now : nat)
  (w : World) :
  users_step (users w) (users (snd (handle userRole op now w))).
Proof.
  destruct op; run; try apply step_same.
  - apply (step_insert _ (pre_save_user true (new_member (nextId w) b now))).
    assumption.
  - eapply (step_replace _ _ u (pre_save_user false (update_member b u))).
    + eapply find_user_self; eassumption.
    + apply (update_member_email b u). congruence.
  - eapply (step_replace _ _ u (pre_save_user false (update_member b u))).
    + eapply find_user_self; eassumption.
    + apply (update_member_email b u). congruence.
  - apply step_remove.
Qed.

(** ** Member creation and update: what a 200 answer means *)

Lemma post_members_success (userRole : option string) (b : MemberBody) (now : nat)
  (w : World) :
  statusCode (fst (post_members userRole b now w)) = 200 ->
  userRole = Some "admin"
  /\ find_by_email (b_email b) (users w) = None
  /\ userValid (new_member (nextId w) b now) = true
  /\ users (snd (post_members userRole b now w))
     = users w ++ [pre_save_user true (new_member (nextId w) b now)]
  /\ projects (snd (post_members userRole b now w)) = projects w.
Proof.
  destruct (not_admin userRole) eqn:A.
  - run; try discriminate.
  - assert (userRole = Some "admin") as ->.
    { destruct userRole as [r|]; [|discriminate]. simpl in A.
      apply negb_false_iff, String.eqb_eq in A. now subst. }
    run; try discriminate. auto.
Qed.

Lemma post_members_conflict (b : MemberBody) (now : nat) (w : World) (u : User) :
  In u (users w) ->
  matches (b_email b) (email u) = true ->
  post_members (Some "admin") b now w
  = (email_conflict_on_create, log_call (UserFindOne (b_email b)) w).
Proof.
  intros I E. pose proof (find_by_email_some _ _ _ I E) as F.
  unfold_routes. simpl. now destruct (find_by_email (b_email b) (users w)).
Qed.

Lemma post_members_refused (userRole : option string) (b : MemberBody) (now : nat)
  (w : World) :
  fst (post_members userRole b now w) = email_conflict_on_create ->
  userRole = Some "admin"
  /\ exists u,
      find_by_email (b_email b) (users w) = Some u
      /\ users (snd (post_members userRole b now w)) = users w.
Proof.
  destruct (not_admin userRole) eqn:A.
  - run; try discriminate.
  - assert (userRole = Some "admin") as ->.
    { destruct userRole as [r|]; [|discriminate]. simpl in A.
      apply negb_false_iff, String.eqb_eq in A. now subst. }
    run; try discriminate. intros _. split; [reflexivity|]. eexists. split; reflexivity.
Qed.

Lemma selected_found (q : js string) (u : User) (us : list User) :
  In u us -> matches q (email u) = true -> 1 <= selected q us.
Proof.
  induction us as [|v us IH]; [intros []|].
  intros [->|I] M; rewrite selected_cons.
  - rewrite M. simpl. lia.
  - specialize (IH I M). lia.
Qed.

(** C2. Email uniqueness is an invariant of every operation; creating a
    member whose email is already stored is refused with the duplicate
    email answer (status 400) and stores nothing; updating a member with
    an email that differs from its own and is held by another member is
    refused likewise; and when two members are created in a row with the
    same email, the first request being answered 200 or already refused
    as a duplicate, the second is refused and exactly one stored member
    has that email. *)
Theorem email_uniqueness_invariant :
  (forall (userRole : option string) (op : Operation) (now : nat) (w : World),
      email_unique (users w) ->
      email_unique (users (snd (handle userRole op now w))))
  /\ (forall (b : MemberBody) (now : nat) (w : World) (u : User),
        In u (users w) ->
        email u = b_email b ->
        fst (post_members (Some "admin") b now w) = email_conflict_on_create
        /\ users (snd (post_members (Some "admin") b now w)) = users w)
  /\ (forall (id : oid) (b : MemberBody) (w : World) (member other : User),
        find_user id (users w) = Some member ->
        b_email b <> email member ->
        In other (users w) ->
        email other = b_email b ->
        fst (put_member (Some "admin") id b w) = email_conflict_on_update
        /\ users (snd (put_member (Some "admin") id b w)) = users w)
  /\ (forall (userRole : option string) (b1 b2 : MemberBody) (t1 t2 : nat)
             (w : World) (e : string),
        email_unique (users w) ->
        b_email b1 = Val e ->
        b_email b2 = Val e ->
        statusCode (fst (post_members userRole b1 t1 w)) = 200
        \/ fst (post_members userRole b1 t1 w) = email_conflict_on_create ->
        let w1 := snd (post_members userRole b1 t1 w) in
        fst (post_members userRole b2 t2 w1) = email_conflict_on_create
        /\ email_count e (users (snd (post_members userRole b2 t2 w1))) = 1).
Proof.
  split; [|split; [|split]].
  - intros userRole op now w U.
    eapply users_step_unique; [exact U | apply handle_users_step].
  - intros b now w u I E.
    rewrite (post_members_conflict b now w u I); [split; reflexivity|].
    rewrite E. apply matches_refl.
  - intros id b w member other F N I E.
    apply strict_neq_spec in N.
    assert (C : find_by_email (b_email b) (users w) <> None).
    { apply (find_by_email_some _ other); [exact I|]. rewrite E. apply matches_refl. }
    unfold_routes. simpl. rewrite F. simpl. rewrite N. simpl.
    destruct (find_by_email (b_email b) (users w)); [split; reflexivity | congruence].
  - intros userRole b1 b2 t1 t2 w e U E1 E2 [S|R]; cbv zeta.
    + destruct (post_members_success _ _ _ _ S) as (-> & N & _ & Us & _).
      set (w1 := snd (post_members (Some "admin") b1 t1 w)) in *.
      assert (I : In (pre_save_user true (new_member (nextId w) b1 t1)) (users w1)).
      { rewrite Us. apply in_or_app. right. now left. }
      rewrite (post_members_conflict b2 t2 w1 _ I).
      * simpl. split; [reflexivity|]. rewrite email_count_selected.
        rewrite E1 in N.
        rewrite Us, selected_app, (find_by_email_none_count _ _ N).
        rewrite selected_cons.
        change (email (pre_save_user true (new_member (nextId w) b1 t1)))
          with (b_email b1). now rewrite E1, matches_refl.
      * simpl. rewrite E1, E2. apply matches_refl.
    + destruct (post_members_refused _ _ _ _ R) as (-> & u & F & Us).
      set (w1 := snd (post_members (Some "admin") b1 t1 w)) in *.
      rewrite E1 in F. apply find_some in F as [I M]. rewrite <- Us in I.
      rewrite (post_members_conflict b2 t2 w1 u I); [|now rewrite E2].
      simpl. split; [reflexivity|]. rewrite Us.
      rewrite Us in I. pose proof (selected_found _ _ _ I M).
      specialize (U e). rewrite email_count_selected in *. lia.
Qed.

(** ** Referential check of [teamMembers] *)

Lemma mem_id_In (i : oid) (ids : list oid) : mem_id i ids = true <-> In i ids.
Proof.
  unfold mem_id. rewrite existsb_exists. split.
  - intros (x & I & E). apply Nat.eqb_eq in E. now subst.
  - intros I. exists i. split; [exact I | apply Nat.eqb_refl].
Qed.

Lemma users_in_ids (ids : list oid) (us : list User) :
  incl (map u_id (users_in ids us)) ids.
Proof.
  intros i I. apply in_map_iff in I as (u & <- & F).
  apply filter_In in F as [_ F]. now apply mem_id_In.
Qed.

Lemma users_in_stored (ids : list oid) (us : list User) (u : User) :
  In u (users_in ids us) -> In u us.
Proof. intros I. now apply filter_In in I. Qed.

Lemma users_in_NoDup (ids : list oid) (us : list User) :
  NoDup (map u_id us) -> NoDup (map u_id (users_in ids us)).
Proof.
  induction us as [|u us IH]; simpl; [constructor|].
  intros N. inversion N as [|x l Nin N' ]; subst.
  destruct (mem_id (u_id u) ids); simpl; [|now apply IH].
  constructor; [|now apply IH].
  intros I. apply Nin. apply in_map_iff in I as (v & E & F).
  apply in_map_iff. exists v. split; [exact E | eapply users_in_stored; eauto].
Qed.

(** Either every id resolves, or one of them is the id of no member. *)
Lemma resolve_or_missing (ids : list oid) (us : list User) :
  all_resolve ids us
  \/ exists i, In i ids /\ forall u, In u us -> u_id u <> i.
Proof.
  induction ids as [|i ids [A|(j & I & M)]].
  - left. intros i [].
  - destruct (find_user i us) as [u|] eqn:F.
    + left. intros k [<-|K]; [|now apply A].
      exists u. split; [|now apply (find_user_id _ us)].
      now apply find_some in F.
    + right. exists i. split; [now left|].
      intros u I E. pose proof (find_none _ _ F u I) as C. simpl in C.
      apply Nat.eqb_neq in C. contradiction.
  - right. exists j. split; [now right | exact M].
Qed.

(** With unique member ids, an id that resolves to nobody makes the
    count of matched members fall short of the count of requested ids. *)
Lemma missing_id_count (ids : list oid) (us : list User) :
  NoDup (map u_id us) ->
  ~ all_resolve ids us ->
  List.length (users_in ids us) < List.length ids.
Proof.
  intros N NA.
  destruct (resolve_or_missing ids us) as [A|(i & I & M)]; [contradiction|].
  assert (L : List.length (i :: map u_id (users_in ids us)) <= List.length ids).
  { apply NoDup_incl_length.
    - constructor; [|now apply users_in_NoDup].
      intros J. apply in_map_iff in J as (u & E & F).
      apply (M u); [eapply users_in_stored; eauto | exact E].
    - intros k [<-|K]; [exact I | now apply (users_in_ids ids us)]. }
  simpl in L. rewrite length_map in L. lia.
Qed.

(** C3. Creating a project with a non-empty [teamMembers] list: as soon
    as one listed id is the id of no stored member the request is
    answered 400 with [success: false] and nothing is persisted; with
    both required names present, the answer is the "members not found"
    one exactly when the number of matched members differs from the
    number of requested ids; and that answer never comes with a write. *)
Theorem create_project_checks_members :
  forall (b : ProjectBody) (now : nat) (w : World) (ids : list oid),
    b_teamMembers b = Val ids ->
    ids <> [] ->
    let r := fst (post_projects (Some "admin") b now w) in
    let w' := snd (post_projects (Some "admin") b now w) in
    (NoDup (map u_id (users w)) ->
     ~ all_resolve ids (users w) ->
     statusCode r = 400 /\ has_success false r
     /\ projects w' = projects w /\ users w' = users w)
    /\ (js_truthy (b_projectName b) = true ->
        js_truthy (b_githubRepo b) = true ->
        (r = members_not_found
         <-> List.length (users_in ids (users w)) <> List.length ids))
    /\ (r = members_not_found -> projects w' = projects w).
Proof.
  intros b now w ids T NE r w'. subst r w'.
  assert (NEb : non_empty (b_teamMembers b) = true).
  { rewrite T. destruct ids; [congruence | reflexivity]. }
  split; [|split].
  - intros N NA. pose proof (missing_id_count ids (users w) N NA) as L.
    apply Nat.lt_neq, Nat.eqb_neq in L.
    unfold_routes. simpl.
    destruct (negb (js_truthy (b_projectName b)) || negb (js_truthy (b_githubRepo b)));
      simpl; [repeat split; reflexivity|].
    rewrite NEb, T. simpl. rewrite L. simpl. repeat split; reflexivity.
  - intros PN GR. unfold_routes. simpl. rewrite PN, GR, NEb, T. simpl.
    destruct (Nat.eqb_spec (List.length (users_in ids (users w))) (List.length ids)) as [E|E];
      simpl.
    + destruct (projectValid _); simpl; split; intros H; try discriminate H;
        contradiction.
    + split; [intros _; exact E | reflexivity].
  - run; intros H; try reflexivity; discriminate H.
Qed.

(** ** Required fields of a new member *)

(** C4. A create request that carries no name, or no email, is not
    stopped by any check of the handler: on the empty store it reaches
    [save()], and what comes back is decided by the schema alone, either
    200 with the incomplete member stored or the generic 500. *)
Theorem create_member_missing_field_reaches_save :
  reaches_save body_without_name /\ reaches_save body_without_email.
Proof.
  split; unfold reaches_save; unfold_routes; simpl;
    match goal with
    | |- context [userValid ?u] => destruct (userValid u)
    end; simpl; split; auto.
Qed.

(** ** Updating the status alone *)

(** Outside the data model, at a store that holds a member without
    email: updating Bob with [{ status: "inactive" }] alone runs the
    lookup [{ email: undefined }], which selects Ann whatever the
    connection option; the request is answered with the duplicate email
    refusal and Bob stays active. *)
Lemma update_status_only_refused :
  let r := fst (put_member (Some "admin") 2 body_only_inactive store_ann_bob) in
  let w' := snd (put_member (Some "admin") 2 body_only_inactive store_ann_bob) in
  r = email_conflict_on_update
  /\ users w' = [ann; bob]
  /\ calls w' = [UserFindById 2; UserFindOne Undefined]
  /\ option_map u_status (find_user 2 (users w')) = Some (Val "active").
Proof. repeat split; reflexivity. Qed.

Lemma find_replace_first {A} (sel : A -> bool) (m d : A) (l : list A) :
  find sel l = Some m -> sel d = true -> find sel (replace_first sel d l) = Some d.
Proof.
  induction l as [|x l IH]; simpl; [discriminate|].
  destruct (sel x) eqn:E; intros F D; simpl.
  - now rewrite D.
  - rewrite E. now apply IH.
Qed.

Lemma find_user_replaced (id : oid) (us : list User) (m d : User) :
  find_user id us = Some m ->
  u_id d = u_id m ->
  find_user id (replace_first (fun x => Nat.eqb (u_id x) (u_id d)) d us) = Some d.
Proof.
  intros F E. pose proof (find_user_id _ _ _ F) as I.
  unfold find_user. rewrite E, I.
  apply (find_replace_first _ m); [exact F|].
  rewrite E, I. apply Nat.eqb_refl.
Qed.

Lemma put_member_effect (userRole : option string) (id : oid) (b : MemberBody)
  (w : World) :
  statusCode (fst (put_member userRole id b w)) = 200 ->
  exists member,
    find_user id (users w) = Some member
    /\ userValid (update_member b member) = true
    /\ users (snd (put_member userRole id b w))
       = replace_first (fun x => Nat.eqb (u_id x) (u_id member))
                       (pre_save_user false (update_member b member)) (users w)
    /\ projects (snd (put_member userRole id b w)) = projects w.
Proof.
  run; try discriminate; intros _; eexists; repeat split; assumption.
Qed.

Lemma put_member_success (userRole : option string) (id : oid) (b : MemberBody)
  (w : World) :
  statusCode (fst (put_member userRole id b w)) = 200 ->
  exists member,
    find_user id (users w) = Some member
    /\ userValid (update_member b member) = true
    /\ find_user id (users (snd (put_member userRole id b w)))
       = Some (pre_save_user false (update_member b member))
    /\ projects (snd (put_member userRole id b w)) = projects w.
Proof.
  intros S. destruct (put_member_effect _ _ _ _ S) as (m & F & V & U & P).
  exists m. repeat split; try assumption.
  rewrite U.
  now apply (find_user_replaced id (users w) m
                                (pre_save_user false (update_member b m))).
Qed.

(** C5. For every existing member of a store in which every member has
    an email (the data model), with the connection option at its
    default and a schema that accepts the updated document: the update
    [{ status: "inactive" }] is answered 200, the stored status becomes
    "inactive", and name, email and role are the stored ones. *)
Theorem put_member_status_only :
  forall (id : oid) (w : World) (member : User),
    ignoreUndefined = false ->
    (forall u, In u (users w) -> exists e, email u = Val e) ->
    find_user id (users w) = Some member ->
    userValid (update_member body_only_inactive member) = true ->
    statusCode (fst (put_member (Some "admin") id body_only_inactive w)) = 200
    /\ has_success true (fst (put_member (Some "admin") id body_only_inactive w))
    /\ exists m',
        find_user id (users (snd (put_member (Some "admin") id body_only_inactive w)))
        = Some m'
        /\ u_status m' = Val "inactive"
        /\ name m' = name member
        /\ email m' = email member
        /\ role m' = role member.
Proof.
  intros id w member Off All F V.
  assert (N : find_by_email Undefined (users w) = None).
  { destruct (find_by_email Undefined (users w)) as [u|] eqn:E; [|reflexivity].
    apply find_some in E as [I M]. destruct (All u I) as [e Ee].
    rewrite Ee in M. simpl in M. congruence. }
  assert (S : statusCode (fst (put_member (Some "admin") id body_only_inactive w)) = 200
              /\ has_success true
                   (fst (put_member (Some "admin") id body_only_inactive w))).
  { revert V. unfold_routes. simpl. rewrite F. simpl.
    destruct (email member); simpl; intros V; rewrite ?N, V; split; reflexivity. }
  destruct S as [S HS]. split; [exact S|]. split; [exact HS|].
  destruct (put_member_success _ _ _ _ S) as (m & Fm & _ & Fm' & _).
  rewrite F in Fm. injection Fm as <-.
  exists (pre_save_user false (update_member body_only_inactive member)).
  split; [exact Fm'|]. repeat split; reflexivity.
Qed.

(** ** Partial updates *)

Lemma is_defined_spec {A} (v : js A) : is_defined v = true <-> v <> Undefined.
Proof. destruct v; simpl; split; congruence. Qed.

Lemma update_member_rules (b : MemberBody) (old : User) :
  member_update_rules b old (update_member b old).
Proof.
  unfold member_update_rules, update_member, if_defined, js_or. simpl.
  repeat split; intros H;
    match type of H with
    | _ <> Undefined => apply is_defined_spec in H
    | _ => idtac
    end; rewrite H; reflexivity.
Qed.

Lemma saved_member_rules (b : MemberBody) (old : User) :
  member_update_rules b old (pre_save_user false (update_member b old)).
Proof. exact (update_member_rules b old). Qed.

Lemma update_project_rules (b : ProjectBody) (now : nat) (old : Project) :
  project_update_rules b old (pre_save now (update_project b old)).
Proof.
  unfold project_update_rules, pre_save, update_project. simpl.
  repeat split; intros H;
    match type of H with
    | _ <> Undefined => apply is_defined_spec in H
    | _ => idtac
    end; rewrite H; reflexivity.
Qed.

Lemma find_project_id (id : oid) (ps : list Project) (p : Project) :
  find_project id ps = Some p -> p_id p = id.
Proof.
  intros F. apply find_some in F as [_ E]. now apply Nat.eqb_eq in E.
Qed.

Lemma put_project_effect (userRole : option string) (id : oid) (b : ProjectBody)
  (now : nat) (w : World) :
  statusCode (fst (put_project userRole id b now w)) = 200 ->
  exists project,
    find_project id (projects w) = Some project
    /\ projects (snd (put_project userRole id b now w))
       = replace_first (fun x => Nat.eqb (p_id x) (p_id project))
                       (pre_save now (update_project b project)) (projects w)
    /\ users (snd (put_project userRole id b now w)) = users w.
Proof.
  run; try discriminate; intros _; eexists; repeat split.
Qed.

(** C6. After a successful update the stored document obeys the
    asymmetric rules: an empty string overwrites a project description;
    [githubUsername], [assignedProjects] and [teamMembers] are replaced
    exactly when the payload carries them (anything but [undefined],
    empty values included); a falsy [name], [role], [status],
    [projectName] or [githubRepo] leaves the stored value in place, a
    truthy one replaces it. *)
Theorem partial_update_semantics :
  (forall (userRole : option string) (id : oid) (b : MemberBody) (w : World),
      statusCode (fst (put_member userRole id b w)) = 200 ->
      exists old new,
        find_user id (users w) = Some old
        /\ find_user id (users (snd (put_member userRole id b w))) = Some new
        /\ member_update_rules b old new)
  /\ (forall (userRole : option string) (id : oid) (b : ProjectBody) (now : nat)
             (w : World),
        statusCode (fst (put_project userRole id b now w)) = 200 ->
        exists old new,
          find_project id (projects w) = Some old
          /\ find_project id (projects (snd (put_project userRole id b now w)))
             = Some new
          /\ project_update_rules b old new).
Proof.
  split.
  - intros userRole id b w S.
    destruct (put_member_success _ _ _ _ S) as (m & F & _ & F' & _).
    exists m, (pre_save_user false (update_member b m)).
    split; [exact F|]. split; [exact F'|]. apply saved_member_rules.
  - intros userRole id b now w S.
    destruct (put_project_effect _ _ _ _ _ S) as (p & F & P & _).
    exists p, (pre_save now (update_project b p)).
    split; [exact F|]. split; [|apply update_project_rules].
    rewrite P. pose proof (find_project_id _ _ _ F) as I.
    unfold find_project. rewrite <- I.
    apply (find_replace_first _ p).
    + now rewrite I.
    + simpl. apply Nat.eqb_refl.
Qed.

(** ** Response envelope *)

Ltac envelope :=
  solve [ left; repeat split; try reflexivity; eexists; reflexivity
        | right; repeat split; try reflexivity; try discriminate;
          eexists; reflexivity ].

(** C7, as the code has it. Every answer of a member or project
    operation is either a 200 whose body is an object starting with
    [success: true], or a non-200 whose body is
    [{ success: false, error: <message> }]; the recommendations route
    answers 200 with the bare array of its four records. *)
Theorem response_envelope :
  (forall (userRole : option string) (op : Operation) (now : nat) (w : World),
      let r := fst (handle userRole op now w) in
      (statusCode r = 200 /\ is_success_body (body r) /\ has_success true r)
      \/ (statusCode r <> 200 /\ is_failure_body (body r) /\ has_success false r))
  /\ (forall w : World,
        get_recommendations w = (json recommendations, w)
        /\ exists items,
            recommendations = JArr items
            /\ List.length items = 4
            /\ Forall is_recommendation items).
Proof.
  split.
  - intros userRole op now w. cbv zeta. destruct op; run; envelope.
  - intros w. split; [reflexivity|]. eexists. split; [reflexivity|].
    split; [reflexivity|].
    repeat constructor; unfold is_recommendation; do 4 eexists; reflexivity.
Qed.

(** C7 as stated fails on the recommendations route: its 200 answer is
    an array, with no [success] property around the payload. *)
Lemma recommendations_body_is_bare_array :
  let r := fst (get_recommendations empty_store) in
  statusCode r = 200
  /\ ~ is_success_body (body r)
  /\ ~ has_success true r.
Proof.
  cbv zeta. split; [reflexivity|]. split.
  - intros [payload H]. discriminate H.
  - intros H. discriminate H.
Qed.

(** ** The duplicate-email lookup of an update *)

(** C8. Whenever the payload's email differs from the stored one, an
    absent email included, the update looks a member up by the payload's
    email right after loading the target, and any member the lookup
    selects turns the request into the duplicate email refusal, with the
    collection left as it was. *)
Theorem update_member_email_lookup :
  forall (id : oid) (b : MemberBody) (w : World) (member : User),
    find_user id (users w) = Some member ->
    b_email b <> email member ->
    let r := fst (put_member (Some "admin") id b w) in
    let w' := snd (put_member (Some "admin") id b w) in
    (exists rest,
        calls w' = calls w ++ UserFindById id :: UserFindOne (b_email b) :: rest)
    /\ (forall other,
          In other (users w) ->
          matches (b_email b) (email other) = true ->
          r = email_conflict_on_update /\ users w' = users w).
Proof.
  intros id b w member F N. apply strict_neq_spec in N. cbv zeta.
  unfold_routes. simpl. rewrite F. simpl. rewrite N. simpl.
  destruct (find_by_email (b_email b) (users w)) eqn:E; simpl.
  - split; [exists []; now rewrite <- !app_assoc | auto].
  - split.
    + destruct (userValid (update_member b member)); simpl;
        eexists; rewrite <- !app_assoc; reflexivity.
    + intros other I M. now elim (find_by_email_some _ _ _ I M).
Qed.

(** ** Role, status and assigned projects of a new member *)

(** C9. A member that gets created carries the payload's [role],
    [status] and [assignedProjects] whenever these are truthy, "admin"
    included, and the defaults "contributor", "active" and the empty
    list only where the payload's value is absent or falsy. *)
Theorem create_member_keeps_supplied_role :
  forall (userRole : option string) (b : MemberBody) (now : nat) (w : World),
    statusCode (fst (post_members userRole b now w)) = 200 ->
    exists m,
      users (snd (post_members userRole b now w)) = users w ++ [m]
      /\ (js_truthy (b_role b) = true -> role m = b_role b)
      /\ (js_truthy (b_role b) = false -> role m = Val "contributor")
      /\ (js_truthy (b_status b) = true -> u_status m = b_status b)
      /\ (js_truthy (b_status b) = false -> u_status m = Val "active")
      /\ (js_truthy (b_assignedProjects b) = true ->
          assignedProjects m = b_assignedProjects b)
      /\ (js_truthy (b_assignedProjects b) = false -> assignedProjects m = Val [])
      /\ (b_role b = Val "admin" -> role m = Val "admin").
Proof.
  intros userRole b now w S.
  destruct (post_members_success _ _ _ _ S) as (_ & _ & _ & U & _).
  exists (pre_save_user true (new_member (nextId w) b now)). split; [exact U|].
  unfold pre_save_user, new_member, js_or. simpl.
  repeat split; intros H; rewrite H; reflexivity.
Qed.

(** ** No referential check of [assignedProjects] *)

(** C10. Creating or updating a member with a list of assigned projects
    never consults the projects collection: answer and members
    collection are the same whatever projects are stored, and a request
    that succeeds stores the supplied list as it came. *)
Theorem assigned_projects_not_validated :
  forall (userRole : option string) (id : oid) (b : MemberBody) (now : nat)
         (w : World) (ids : list oid),
    b_assignedProjects b = Val ids ->
    (forall ps,
        fst (post_members userRole b now (set_projects ps w))
        = fst (post_members userRole b now w)
        /\ users (snd (post_members userRole b now (set_projects ps w)))
           = users (snd (post_members userRole b now w)))
    /\ (forall ps,
          fst (put_member userRole id b (set_projects ps w))
          = fst (put_member userRole id b w)
          /\ users (snd (put_member userRole id b (set_projects ps w)))
             = users (snd (put_member userRole id b w)))
    /\ (statusCode (fst (post_members userRole b now w)) = 200 ->
        exists m,
          users (snd (post_members userRole b now w)) = users w ++ [m]
          /\ assignedProjects m = Val ids)
    /\ (statusCode (fst (put_member userRole id b w)) = 200 ->
        exists m,
          find_user id (users (snd (put_member userRole id b w))) = Some m
          /\ assignedProjects m = Val ids).
Proof.
  intros userRole id b now w ids A.
  split; [|split; [|split]].
  - intros ps. run; split; reflexivity.
  - intros ps. run; split; reflexivity.
  - intros S. destruct (post_members_success _ _ _ _ S) as (_ & _ & _ & U & _).
    exists (pre_save_user true (new_member (nextId w) b now)). split; [exact U|].
    simpl. now rewrite A.
  - intros S. destruct (put_member_success _ _ _ _ S) as (m & _ & _ & F & _).
    exists (pre_save_user false (update_member b m)). split; [exact F|].
    simpl. now rewrite A.
Qed.

(** ** Unknown ids *)

(** X1. For an administrator, reading, updating or deleting a member
    under an id that no stored member has is answered 404 "Team member
    not found" after the single [findById], with nothing else done. *)
Theorem unknown_member_not_found :
  forall (id : oid) (b : MemberBody) (w : World),
    find_user id (users w) = None ->
    let miss := (failure 404 "Team member not found",
                 log_call (UserFindById id) w) in
    get_member (Some "admin") id w = miss
    /\ put_member (Some "admin") id b w = miss
    /\ delete_member (Some "admin") id w = miss.
Proof.
  intros id b w F. cbv zeta.
  repeat split; unfold_routes; simpl; rewrite F; reflexivity.
Qed.

(** X2. The same for projects: 404 "Project not found" after the single
    [findById], whatever the payload of the update. *)
Theorem unknown_project_not_found :
  forall (id : oid) (b : ProjectBody) (now : nat) (w : World),
    find_project id (projects w) = None ->
    let miss := (failure 404 "Project not found",
                 log_call (ProjectFindById id) w) in
    get_project (Some "admin") id w = miss
    /\ put_project (Some "admin") id b now w = miss
    /\ delete_project (Some "admin") id w = miss.
Proof.
  intros id b now w F. cbv zeta.
  repeat split; unfold_routes; simpl; rewrite F; reflexivity.
Qed.

(** ** Deleting *)

Lemma remove_first_length {A} (sel : A -> bool) (m : A) (l : list A) :
  find sel l = Some m -> S (List.length (remove_first sel l)) = List.length l.
Proof.
  induction l as [|x l IH]; simpl; [discriminate|].
  destruct (sel x); [reflexivity|]. intros F. simpl. now rewrite IH.
Qed.

Lemma find_remove_other {A} (key : A -> nat) (i j : nat) (l : list A) :
  j <> i ->
  find (fun x => Nat.eqb (key x) j) (remove_first (fun x => Nat.eqb (key x) i) l)
  = find (fun x => Nat.eqb (key x) j) l.
Proof.
  intros N. induction l as [|x l IH]; simpl; [reflexivity|].
  destruct (Nat.eqb_spec (key x) i) as [E|E]; simpl.
  - destruct (Nat.eqb_spec (key x) j); [congruence | reflexivity].
  - now rewrite IH.
Qed.

Lemma find_absent {A} (key : A -> nat) (i : nat) (l : list A) :
  ~ In i (map key l) -> find (fun x => Nat.eqb (key x) i) l = None.
Proof.
  induction l as [|x l IH]; simpl; [reflexivity|].
  intros N. destruct (Nat.eqb_spec (key x) i) as [E|E].
  - elim N. now left.
  - apply IH. intros I. apply N. now right.
Qed.

Lemma find_remove_same {A} (key : A -> nat) (i : nat) (l : list A) :
  NoDup (map key l) ->
  find (fun x => Nat.eqb (key x) i) (remove_first (fun x => Nat.eqb (key x) i) l)
  = None.
Proof.
  induction l as [|x l IH]; simpl; [reflexivity|].
  intros N. inversion N as [|k ks Nin N']; subst.
  destruct (Nat.eqb_spec (key x) i) as [E|E]; simpl.
  - subst i. now apply find_absent.
  - destruct (Nat.eqb_spec (key x) i); [contradiction | now apply IH].
Qed.

(** X3. Deleting a stored member is answered 200 and takes exactly that
    member out: one member less, every other id still resolves as
    before, the deleted id resolves no more when ids are unique; and the
    projects collection is not touched, so a project that lists the
    member keeps the id. *)
Theorem delete_member_removes :
  forall (id : oid) (w : World) (m : User),
    find_user id (users w) = Some m ->
    let r := fst (delete_member (Some "admin") id w) in
    let w' := snd (delete_member (Some "admin") id w) in
    statusCode r = 200
    /\ has_success true r
    /\ S (List.length (users w')) = List.length (users w)
    /\ (forall j, j <> id -> find_user j (users w') = find_user j (users w))
    /\ (NoDup (map u_id (users w)) -> find_user id (users w') = None)
    /\ projects w' = projects w.
Proof.
  intros id w m F. cbv zeta.
  assert (E : delete_member (Some "admin") id w
              = (json (JObj [("success", JBool true);
                             ("message", JStr "Team member removed successfully")]),
                 log_call (UserFindByIdAndDelete id)
                   (set_users (remove_first (fun u => Nat.eqb (u_id u) id) (users w))
                              (log_call (UserFindById id) w)))).
  { unfold_routes. simpl. rewrite F. reflexivity. }
  rewrite E. simpl. repeat split.
  - now apply (remove_first_length _ m).
  - intros j N. now apply (find_remove_other u_id).
  - intros N. now apply (find_remove_same u_id).
Qed.

(** X4. Deleting a stored project: 200, one project less, the other ids
    resolve as before, the deleted id no more when ids are unique, and
    the members collection is not touched. *)
Theorem delete_project_removes :
  forall (id : oid) (w : World) (p : Project),
    find_project id (projects w) = Some p ->
    let r := fst (delete_project (Some "admin") id w) in
    let w' := snd (delete_project (Some "admin") id w) in
    statusCode r = 200
    /\ has_success true r
    /\ S (List.length (projects w')) = List.length (projects w)
    /\ (forall j, j <> id ->
                  find_project j (projects w') = find_project j (projects w))
    /\ (NoDup (map p_id (projects w)) -> find_project id (projects w') = None)
    /\ users w' = users w.
Proof.
  intros id w p F. cbv zeta.
  assert (E : delete_project (Some "admin") id w
              = (json (JObj [("success", JBool true);
                             ("message", JStr "Project deleted successfully")]),
                 log_call (ProjectFindByIdAndDelete id)
                   (set_projects
                      (remove_first (fun x => Nat.eqb (p_id x) id) (projects w))
                      (log_call (ProjectFindById id) w)))).
  { unfold_routes. simpl. rewrite F. reflexivity. }
  rewrite E. simpl. repeat split.
  - now apply (remove_first_length _ p).
  - intros j N. now apply (find_remove_other p_id).
  - intros N. now apply (find_remove_same p_id).
Qed.

(** ** What a request never does *)

Lemma not_admin_false (userRole : option string) :
  not_admin userRole = false -> userRole = Some "admin".
Proof.
  destruct userRole as [r|]; simpl; [|discriminate].
  intros E. apply negb_false_iff, String.eqb_eq in E. now subst.
Qed.

(** X5. A member or project operation is answered 403 exactly when the
    [user-role] header is not the literal "admin": an administrator is
    never refused access, whatever the request and the store. *)
Theorem forbidden_iff_not_admin :
  forall (userRole : option string) (op : Operation) (now : nat) (w : World),
    statusCode (fst (handle userRole op now w)) = 403
    <-> userRole <> Some "admin".
Proof.
  intros userRole op now w. rewrite <- not_admin_spec.
  destruct (not_admin userRole) eqn:A.
  - split; [reflexivity|]. intros _.
    destruct op; simpl;
      unfold get_members, post_members, get_member, put_member, delete_member,
             get_projects, post_projects, get_project, put_project,
             delete_project, try_catch;
      rewrite A; reflexivity.
  - apply not_admin_false in A. subst userRole.
    split; [|discriminate].
    destruct op; run; discriminate.
Qed.

(** X6. A request that is not answered 200 has changed neither
    collection: refusals, misses and the errors caught as 500 leave the
    members and the projects as they were. *)
Theorem failure_changes_nothing :
  forall (userRole : option string) (op : Operation) (now : nat) (w : World),
    statusCode (fst (handle userRole op now w)) <> 200 ->
    users (snd (handle userRole op now w)) = users w
    /\ projects (snd (handle userRole op now w)) = projects w.
Proof.
  intros userRole op now w.
  destruct op; run; intros Hne; try (split; reflexivity); now elim Hne.
Qed.

(** X7. The four [GET] operations never change a collection, whoever
    asks; and no member operation changes the projects, no project
    operation the members (deleting a member does not cascade). *)
Theorem reads_and_frames :
  forall (userRole : option string) (op : Operation) (now : nat) (w : World),
    let w' := snd (handle userRole op now w) in
    (is_read op = true -> users w' = users w /\ projects w' = projects w)
    /\ (is_member_op op = true -> projects w' = projects w)
    /\ (is_member_op op = false -> users w' = users w).
Proof.
  intros userRole op now w. cbv zeta.
  destruct op; run;
    (split; [|split]); intros Hk; try (split; reflexivity); try reflexivity;
    discriminate Hk.
Qed.

(** ** Creating, then reading *)

Lemma find_app_last {A} (f : A -> bool) (l : list A) (x : A) :
  find f l = None -> find f (l ++ [x]) = if f x then Some x else None.
Proof.
  induction l as [|y l IH]; simpl; [reflexivity|].
  destruct (f y); [discriminate | exact IH].
Qed.

Lemma find_fresh {A} (key : A -> nat) (i : nat) (l : list A) :
  (forall x, In x l -> key x <> i) -> find (fun x => Nat.eqb (key x) i) l = None.
Proof.
  intros Fr. apply find_absent. intros I.
  apply in_map_iff in I as (x & E & Ix). now apply (Fr x Ix).
Qed.

(** X8. A member that was just created is read back under its new id:
    [GET /members/:id] answers 200 with the id, the name, email and
    role of the creation (the role defaulted when it was not supplied)
    and the creation time as [joinedDate]. *)
Theorem create_member_round_trip :
  forall (userRole : option string) (b : MemberBody) (now : nat) (w : World),
    statusCode (fst (post_members userRole b now w)) = 200 ->
    (forall u, In u (users w) -> u_id u <> nextId w) ->
    let w1 := snd (post_members userRole b now w) in
    let r := fst (get_member (Some "admin") (nextId w) w1) in
    statusCode r = 200
    /\ exists fields,
        prop "member" (body r) = Some (JObj fields)
        /\ assoc "_id" fields = Some (JId (nextId w))
        /\ assoc "name" fields = Some (of_text (b_name b))
        /\ assoc "email" fields = Some (of_text (b_email b))
        /\ assoc "role" fields
           = Some (of_text (js_or (b_role b) (Val "contributor")))
        /\ assoc "joinedDate" fields = Some (JDate now).
Proof.
  intros userRole b now w S Fr.
  destruct (post_members_success _ _ _ _ S) as (_ & _ & _ & U & _).
  cbv zeta. set (w1 := snd (post_members userRole b now w)) in *.
  assert (F : find_user (nextId w) (users w1)
              = Some (pre_save_user true (new_member (nextId w) b now))).
  { rewrite U. unfold find_user. rewrite find_app_last.
    - simpl. now rewrite Nat.eqb_refl.
    - now apply (find_fresh u_id). }
  unfold_routes. simpl. rewrite F. simpl.
  split; [reflexivity|]. eexists. repeat split.
Qed.

(** ** Updating a member *)

Lemma strict_neq_same (a : js string) : strict_neq a a = false.
Proof. destruct a; simpl; auto. now rewrite String.eqb_refl. Qed.

(** X9. A successful update keeps the id and the creation time of the
    member, which the handler never assigns; the email becomes the
    payload's when that is truthy and stays as stored otherwise. *)
Theorem update_member_keeps_identity :
  forall (userRole : option string) (id : oid) (b : MemberBody) (w : World),
    statusCode (fst (put_member userRole id b w)) = 200 ->
    exists old new,
      find_user id (users w) = Some old
      /\ find_user id (users (snd (put_member userRole id b w))) = Some new
      /\ u_id new = id
      /\ u_createdAt new = u_createdAt old
      /\ (js_truthy (b_email b) = true -> email new = b_email b)
      /\ (js_truthy (b_email b) = false -> email new = email old).
Proof.
  intros userRole id b w S.
  destruct (put_member_success _ _ _ _ S) as (m & F & _ & F' & _).
  exists m, (pre_save_user false (update_member b m)).
  split; [exact F|]. split; [exact F'|].
  split; [exact (find_user_id _ _ _ F)|].
  unfold pre_save_user, update_member, js_or. simpl.
  repeat split; intros T; rewrite T; reflexivity.
Qed.

(** X10. When the payload repeats the stored email, the update makes no
    lookup by email: the store sees [findById] and [save] only, and the
    duplicate email refusal cannot come back. *)
Theorem same_email_no_lookup :
  forall (id : oid) (b : MemberBody) (w : World) (member : User),
    find_user id (users w) = Some member ->
    b_email b = email member ->
    let r := fst (put_member (Some "admin") id b w) in
    let w' := snd (put_member (Some "admin") id b w) in
    calls w' = calls w ++ [UserFindById id; UserSave id]
    /\ r <> email_conflict_on_update.
Proof.
  intros id b w member F E. cbv zeta.
  pose proof (find_user_id _ _ _ F) as I.
  unfold_routes. simpl. rewrite F. simpl. rewrite E, strict_neq_same. simpl.
  destruct (userValid _); simpl; rewrite I, <- app_assoc;
    (split; [reflexivity | discriminate]).
Qed.

(** ** Creating a project *)

(** X11. A project without a truthy [projectName] or [githubRepo] is
    refused with 400 before the store is asked anything: the world,
    log of calls included, is as before. *)
Theorem create_project_requires_names :
  forall (b : ProjectBody) (now : nat) (w : World),
    js_truthy (b_projectName b) = false \/ js_truthy (b_githubRepo b) = false ->
    post_projects (Some "admin") b now w
    = (failure 400 "Project name and GitHub repository are required", w).
Proof.
  intros b now w [H|H]; unfold_routes; simpl; rewrite H; simpl;
    rewrite ?orb_true_r; reflexivity.
Qed.

(** The hook changes [updatedAt] alone, which no validator reads. *)
Lemma projectValid_pre_save (t t' : nat) (p : Project) :
  projectValid (pre_save t p) = projectValid (pre_save t' p).
Proof. reflexivity. Qed.

Lemma post_projects_effect (userRole : option string) (b : ProjectBody) (now : nat)
  (w : World) :
  statusCode (fst (post_projects userRole b now w)) = 200 ->
  js_truthy (b_projectName b) = true
  /\ js_truthy (b_githubRepo b) = true
  /\ projectValid (pre_save (later now) (new_project (nextId w) b now)) = true
  /\ projects (snd (post_projects userRole b now w))
     = projects w ++ [pre_save (later now) (new_project (nextId w) b now)]
  /\ users (snd (post_projects userRole b now w)) = users w
  /\ (non_empty (b_teamMembers b) = true ->
      List.length (users_in (ids_of (b_teamMembers b)) (users w))
      = List.length (ids_of (b_teamMembers b))).
Proof.
  run; try discriminate; intros _; repeat split; try assumption;
    intros Hn; try discriminate Hn; now apply Nat.eqb_eq.
Qed.

(** X12. A project that gets created is stored with the supplied name
    and repository, the description and status of the payload when
    truthy and [""] and ["active"] otherwise, an empty team when none
    was supplied, [createdAt] as read when the document was built and
    [updatedAt] as read, later, by the pre-save hook. *)
Theorem create_project_defaults :
  forall (userRole : option string) (b : ProjectBody) (now : nat) (w : World),
    statusCode (fst (post_projects userRole b now w)) = 200 ->
    exists p,
      projects (snd (post_projects userRole b now w)) = projects w ++ [p]
      /\ p_id p = nextId w
      /\ projectName p = b_projectName b
      /\ githubRepo p = b_githubRepo b
      /\ (js_truthy (b_description b) = true -> description p = b_description b)
      /\ (js_truthy (b_description b) = false -> description p = Val "")
      /\ (js_truthy (b_pstatus b) = true -> p_status p = b_pstatus b)
      /\ (js_truthy (b_pstatus b) = false -> p_status p = Val "active")
      /\ (forall ids, b_teamMembers b = Val ids -> teamMembers p = Val ids)
      /\ (~ (exists ids, b_teamMembers b = Val ids) -> teamMembers p = Val [])
      /\ p_createdAt p = now
      /\ p_updatedAt p = later now.
Proof.
  intros userRole b now w S.
  destruct (post_projects_effect _ _ _ _ S) as (_ & _ & _ & P & _).
  exists (pre_save (later now) (new_project (nextId w) b now)).
  split; [exact P|]. unfold pre_save, new_project, js_or. simpl.
  repeat split; try (intros T; rewrite T; reflexivity).
  - intros ids T. now rewrite T.
  - intros N. destruct (b_teamMembers b) as [| |ids]; try reflexivity.
    elim N. now exists ids.
Qed.

(** ** Updating a project *)

(** X13. A successful project update stamps [updatedAt] with the time
    of the request (the pre-save hook) and keeps the id and
    [createdAt] of the stored project. *)
Theorem update_project_timestamps :
  forall (userRole : option string) (id : oid) (b : ProjectBody) (now : nat)
         (w : World),
    statusCode (fst (put_project userRole id b now w)) = 200 ->
    exists old new,
      find_project id (projects w) = Some old
      /\ find_project id (projects (snd (put_project userRole id b now w)))
         = Some new
      /\ p_id new = id
      /\ p_createdAt new = p_createdAt old
      /\ p_updatedAt new = now.
Proof.
  intros userRole id b now w S.
  destruct (put_project_effect _ _ _ _ _ S) as (p & F & P & _).
  pose proof (find_project_id _ _ _ F) as I.
  exists p, (pre_save now (update_project b p)).
  split; [exact F|]. split; [|repeat split; exact I].
  rewrite P. unfold find_project. rewrite <- I.
  apply (find_replace_first _ p); [now rewrite I | simpl; apply Nat.eqb_refl].
Qed.

(** X14. The referential check of an update: for a stored project, a
    non-empty [teamMembers] payload with an id that resolves to no
    member is refused with "One or more team members not found", and
    the project stays as stored. *)
Theorem update_project_checks_members :
  forall (id : oid) (b : ProjectBody) (now : nat) (w : World) (p : Project)
         (ids : list oid),
    find_project id (projects w) = Some p ->
    b_teamMembers b = Val ids ->
    NoDup (map u_id (users w)) ->
    ~ all_resolve ids (users w) ->
    fst (put_project (Some "admin") id b now w) = members_not_found
    /\ projects (snd (put_project (Some "admin") id b now w)) = projects w
    /\ users (snd (put_project (Some "admin") id b now w)) = users w.
Proof.
  intros id b now w p ids F T N NA.
  pose proof (missing_id_count ids (users w) N NA) as L.
  assert (NEb : non_empty (b_teamMembers b) = true).
  { rewrite T. destruct ids; [simpl in L; lia | reflexivity]. }
  apply Nat.lt_neq, Nat.eqb_neq in L.
  unfold_routes. simpl. rewrite F. simpl. rewrite NEb, T. simpl. rewrite L.
  simpl. repeat split.
Qed.

(** ** Creating a project, then reading it *)

Lemma count_all_resolve (ids : list oid) (us : list User) :
  NoDup (map u_id us) ->
  List.length (users_in ids us) = List.length ids ->
  all_resolve ids us.
Proof.
  intros N L. destruct (resolve_or_missing ids us) as [A|(i & I & M)]; [exact A|].
  assert (NA : ~ all_resolve ids us).
  { intros A. destruct (A i I) as (u & Iu & E). exact (M u Iu E). }
  pose proof (missing_id_count ids us N NA). lia.
Qed.

Lemma resolve_all (ids : list oid) (us : list User) :
  all_resolve ids us ->
  exists ms,
    resolve ids us = map summary ms
    /\ map u_id ms = ids
    /\ forall m, In m ms -> In m us.
Proof.
  induction ids as [|i ids IH]; intros A.
  - exists []. repeat split. intros m [].
  - destruct IH as (ms & R & I & S).
    { intros k K. apply A. now right. }
    simpl. destruct (find_user i us) as [u|] eqn:F.
    + exists (u :: ms). simpl. rewrite R, I, (find_user_id _ _ _ F).
      repeat split. intros m [<-|M]; [now apply find_some in F | now apply S].
    + destruct (A i (or_introl eq_refl)) as (u & Iu & E).
      pose proof (find_none _ _ F u Iu) as C. simpl in C.
      apply Nat.eqb_neq in C. contradiction.
Qed.

(** X15. A project that was just created is read back under its new
    id with its team resolved: [GET /projects/:id] answers 200 with the
    supplied name and, as [teamMembers], one summary per supplied id, in
    the order supplied, each the summary of a stored member. *)
Theorem create_project_round_trip :
  forall (userRole : option string) (b : ProjectBody) (now : nat) (w : World)
         (ids : list oid),
    b_teamMembers b = Val ids ->
    NoDup (map u_id (users w)) ->
    (forall p, In p (projects w) -> p_id p <> nextId w) ->
    statusCode (fst (post_projects userRole b now w)) = 200 ->
    let w1 := snd (post_projects userRole b now w) in
    let r := fst (get_project (Some "admin") (nextId w) w1) in
    statusCode r = 200
    /\ exists fields ms,
        prop "project" (body r) = Some (JObj fields)
        /\ assoc "projectName" fields = Some (of_text (b_projectName b))
        /\ assoc "teamMembers" fields = Some (JArr (map summary ms))
        /\ map u_id ms = ids
        /\ forall m, In m ms -> In m (users w).
Proof.
  intros userRole b now w ids T N Fr S.
  destruct (post_projects_effect _ _ _ _ S) as (_ & _ & _ & P & U & L).
  assert (A : all_resolve ids (users w)).
  { destruct ids as [|i ids]; [intros k []|].
    apply count_all_resolve; [exact N|].
    rewrite T in L. now apply L. }
  destruct (resolve_all ids (users w) A) as (ms & R & I & In_ms).
  cbv zeta. set (w1 := snd (post_projects userRole b now w)) in *.
  assert (F : find_project (nextId w) (projects w1)
              = Some (pre_save (later now) (new_project (nextId w) b now))).
  { rewrite P. unfold find_project. rewrite find_app_last.
    - simpl. now rewrite Nat.eqb_refl.
    - now apply (find_fresh p_id). }
  unfold_routes. simpl. rewrite F. simpl. rewrite U, T. simpl. rewrite R.
  split; [reflexivity|]. eexists. exists ms. repeat split; assumption.
Qed.

(** ** Listing *)

Lemma insert_desc_perm {A} (key : A -> nat) (a : A) (l : list A) :
  Permutation (insert_desc key a l) (a :: l).
Proof.
  induction l as [|b l IH]; simpl; [reflexivity|].
  destruct (Nat.leb (key b) (key a)); [reflexivity|].
  rewrite IH. apply perm_swap.
Qed.

Lemma sort_desc_perm {A} (key : A -> nat) (l : list A) :
  Permutation (sort_desc key l) l.
Proof.
  induction l as [|a l IH]; simpl; [constructor|].
  unfold sort_desc in *. simpl. rewrite insert_desc_perm. now constructor.
Qed.

Lemma insert_desc_sorted {A} (key : A -> nat) (a : A) (l : list A) :
  newest_first key l -> newest_first key (insert_desc key a l).
Proof.
  unfold newest_first. induction l as [|b l IH]; simpl; intros S.
  - repeat constructor.
  - inversion S as [|x xs S' F]; subst.
    destruct (Nat.leb_spec (key b) (key a)) as [L|L].
    + constructor; [exact S|]. constructor; [exact L|].
      eapply Forall_impl; [|exact F]. simpl. intros x Hx. lia.
    + constructor; [now apply IH|].
      rewrite insert_desc_perm. constructor; [lia | exact F].
Qed.

Lemma sort_desc_sorted {A} (key : A -> nat) (l : list A) :
  newest_first key (sort_desc key l).
Proof.
  induction l as [|a l IH]; [constructor|].
  unfold sort_desc in *. simpl. now apply insert_desc_sorted.
Qed.

(** X16. [GET /members] answers an administrator with one row per
    stored member, no member twice and none invented, newest first; no
    row leaves [githubUsername], [assignedProjects] or [status] unset,
    and nothing is written. *)
Theorem list_members_complete_newest_first :
  forall w : World,
    exists ms,
      fst (get_members (Some "admin") w)
      = json (JObj [("success", JBool true);
                    ("members", JArr (map member_row ms))])
      /\ Permutation ms (map without_password (users w))
      /\ newest_first u_createdAt ms
      /\ Forall (fun row =>
                   exists g a s,
                     prop "githubUsername" row = Some (JStr g)
                     /\ prop "assignedProjects" row = Some (JArr a)
                     /\ prop "status" row = Some (JStr s) /\ s <> "")
                (map member_row ms)
      /\ users (snd (get_members (Some "admin") w)) = users w.
Proof.
  intros w. exists (sort_desc u_createdAt (map without_password (users w))).
  split; [reflexivity|]. split; [apply sort_desc_perm|].
  split; [apply sort_desc_sorted|]. split; [|reflexivity].
  apply Forall_forall. intros row I. apply in_map_iff in I as (m & <- & _).
  unfold member_row, js_or. simpl.
  destruct (githubUsername m) as [| |[|c g]], (assignedProjects m) as [| |a],
           (u_status m) as [| |[|d s]];
    simpl; do 3 eexists; repeat split; discriminate.
Qed.

(** The row of one project in the list. *)
Lemma project_rows (ps : list Project) (us : list User) :
  map (fun r : Project * jsval =>
         JObj (project_head (fst r) (snd r)
               ++ [("createdAt", JDate (p_createdAt (fst r)));
                   ("updatedAt", JDate (p_updatedAt (fst r)))]))
      (map (fun p => (p, populated (teamMembers p) us)) ps)
  = map (fun p =>
           JObj (project_head p (populated (teamMembers p) us)
                 ++ [("createdAt", JDate (p_createdAt p));
                     ("updatedAt", JDate (p_updatedAt p))])) ps.
Proof. now rewrite map_map. Qed.

(** X17. [GET /projects] answers an administrator with one row per
    stored project, newest first, each with its team resolved against
    the members stored at that moment; nothing is written. *)
Theorem list_projects_complete_newest_first :
  forall w : World,
    exists ps,
      fst (get_projects (Some "admin") w)
      = json (JObj
          [("success", JBool true);
           ("projects",
            JArr (map (fun p =>
                         JObj (project_head p (populated (teamMembers p) (users w))
                               ++ [("createdAt", JDate (p_createdAt p));
                                   ("updatedAt", JDate (p_updatedAt p))]))
                      ps))])
      /\ Permutation ps (projects w)
      /\ newest_first p_createdAt ps
      /\ projects (snd (get_projects (Some "admin") w)) = projects w.
Proof.
  intros w. exists (sort_desc p_createdAt (projects w)).
  split; [|split; [apply sort_desc_perm | split; [apply sort_desc_sorted | reflexivity]]].
  unfold_routes. simpl. now rewrite project_rows.
Qed.

(** ** Stored projects satisfy their schema *)

Lemma Forall_replace_first {A} (P : A -> Prop) (sel : A -> bool) (d : A)
  (l : list A) :
  Forall P l -> P d -> Forall P (replace_first sel d l).
Proof.
  intros F D. induction F as [|x l Px F IH]; simpl; [constructor|].
  destruct (sel x); constructor; assumption.
Qed.

Lemma Forall_remove_first {A} (P : A -> Prop) (sel : A -> bool) (l : list A) :
  Forall P l -> Forall P (remove_first sel l).
Proof.
  intros F. induction F as [|x l Px F IH]; simpl; [constructor|].
  destruct (sel x); [assumption | now constructor].
Qed.

(** X18. The validators of the Project schema are an invariant of the
    API: if every stored project has a non-empty name and repository
    and a status among active, inactive and completed, so it is after
    any operation, whoever asks and whatever the payload. *)
Theorem projects_stay_valid :
  forall (userRole : option string) (op : Operation) (now : nat) (w : World),
    projects_valid (projects w) ->
    projects_valid (projects (snd (handle userRole op now w))).
Proof.
  intros userRole op now w V. unfold projects_valid in *.
  destruct op; run; try assumption.
  - apply Forall_app. split; [assumption | now repeat constructor].
  - apply Forall_app. split; [assumption | now repeat constructor].
  - now apply Forall_replace_first.
  - now apply Forall_replace_first.
  - now apply Forall_remove_first.
Qed.

(** X19. A status outside the enumeration is not caught by the handler
    but by [save()]: the creation is never answered 200 and stores
    nothing, and for an administrator with both names and no team to
    check the answer is the generic 500. *)
Theorem create_project_unknown_status :
  forall (userRole : option string) (b : ProjectBody) (now : nat) (w : World)
         (s : string),
    b_pstatus b = Val s ->
    s <> "" ->
    ~ In s status_enum ->
    statusCode (fst (post_projects userRole b now w)) <> 200
    /\ projects (snd (post_projects userRole b now w)) = projects w
    /\ (userRole = Some "admin" ->
        js_truthy (b_projectName b) = true ->
        js_truthy (b_githubRepo b) = true ->
        non_empty (b_teamMembers b) = false ->
        fst (post_projects userRole b now w)
        = failure 500 "Failed to create project").
Proof.
  intros userRole b now w s St Ne NI.
  assert (T : js_truthy (b_pstatus b) = true).
  { rewrite St. destruct s; [congruence | reflexivity]. }
  assert (E : enum_ok status_enum (b_pstatus b) = false).
  { rewrite St. unfold enum_ok. apply not_true_is_false. intros C.
    apply existsb_exists in C as (x & I & Ex).
    apply String.eqb_eq in Ex. subst x. contradiction. }
  assert (V : projectValid (pre_save (later now) (new_project (nextId w) b now))
              = false).
  { unfold projectValid, pre_save, new_project, js_or. simpl.
    rewrite T, E. apply andb_false_r. }
  assert (N : statusCode (fst (post_projects userRole b now w)) <> 200).
  { intros S. destruct (post_projects_effect _ _ _ _ S) as (_ & _ & V' & _).
    congruence. }
  split; [exact N|]. split.
  - revert N. run; intros N; try reflexivity; now elim N.
  - intros -> PN GR NE. revert V. unfold_routes. simpl.
    rewrite PN, GR, NE. simpl. intros V. now rewrite V.
Qed.

(** ** When a creation succeeds *)

(** X20. [POST /members] is answered 200 exactly when the caller is an
    administrator, the lookup by the payload's email selects nobody and
    the schema accepts the new document; nothing in the handler itself
    looks at the name. *)
Theorem create_member_succeeds_iff :
  forall (userRole : option string) (b : MemberBody) (now : nat) (w : World),
    statusCode (fst (post_members userRole b now w)) = 200
    <-> (userRole = Some "admin"
         /\ find_by_email (b_email b) (users w) = None
         /\ userValid (new_member (nextId w) b now) = true).
Proof.
  intros userRole b now w. split.
  - intros S. destruct (post_members_success _ _ _ _ S) as (A & N & V & _).
    auto.
  - intros (-> & N & V). unfold_routes. simpl. rewrite N. simpl. now rewrite V.
Qed.

(** X21. [POST /projects] is answered 200 exactly when the caller is an
    administrator, name and repository are truthy, a non-empty team
    matches as many members as it lists ids, and the schema accepts the
    new document. *)
Theorem create_project_succeeds_iff :
  forall (userRole : option string) (b : ProjectBody) (now : nat) (w : World),
    statusCode (fst (post_projects userRole b now w)) = 200
    <-> (userRole = Some "admin"
         /\ js_truthy (b_projectName b) = true
         /\ js_truthy (b_githubRepo b) = true
         /\ (non_empty (b_teamMembers b) = true ->
             List.length (users_in (ids_of (b_teamMembers b)) (users w))
             = List.length (ids_of (b_teamMembers b)))
         /\ projectValid (pre_save now (new_project (nextId w) b now)) = true).
Proof.
  intros userRole b now w. split.
  - intros S.
    destruct (post_projects_effect _ _ _ _ S) as (PN & GR & V & _ & _ & L).
    repeat split; try assumption.
    destruct (not_admin userRole) eqn:A; [|now apply not_admin_false].
    revert S. unfold_routes. simpl. rewrite A. discriminate.
  - intros (-> & PN & GR & L & V).
    rewrite (projectValid_pre_save now (later now)) in V.
    revert V. unfold_routes. simpl.
    rewrite PN, GR. simpl.
    destruct (non_empty (b_teamMembers b)); simpl.
    + rewrite (L eq_refl), Nat.eqb_refl. simpl. intros V. now rewrite V.
    + intros V. now rewrite V.
Qed.

(** ** Passwords stay inside *)

Lemma has_key_obj_cons (k k' : string) (x : jsval) (fs : list (string * jsval)) :
  has_key k (JObj ((k', x) :: fs))
  = ((k' =? k) || has_key k x || has_key k (JObj fs)).
Proof. reflexivity. Qed.

Lemma has_key_arr_cons (k : string) (x : jsval) (l : list jsval) :
  has_key k (JArr (x :: l)) = (has_key k x || has_key k (JArr l)).
Proof. reflexivity. Qed.

Lemma has_key_arr_map {A} (k : string) (f : A -> jsval) (l : list A) :
  (forall a, has_key k (f a) = false) -> has_key k (JArr (map f l)) = false.
Proof.
  intros F. induction l as [|a l IH]; [reflexivity|].
  change (map f (a :: l)) with (f a :: map f l).
  now rewrite has_key_arr_cons, F, IH.
Qed.

Lemma has_key_text (k : string) (v : js string) : has_key k (of_text v) = false.
Proof. now destruct v. Qed.

Lemma has_key_ids (k : string) (v : js (list oid)) : has_key k (of_ids v) = false.
Proof.
  destruct v as [| |l]; try reflexivity.
  unfold of_ids. now apply has_key_arr_map.
Qed.

Lemma no_password_in_row (m : User) : has_key "password" (member_row m) = false.
Proof.
  unfold member_row.
  now rewrite !has_key_obj_cons, !has_key_text, has_key_ids.
Qed.

Lemma no_password_in_summary (u : User) : has_key "password" (summary u) = false.
Proof. unfold summary. now rewrite !has_key_obj_cons, !has_key_text. Qed.

Lemma no_password_in_team (tm : js (list oid)) (us : list User) :
  has_key "password" (populated tm us) = false.
Proof.
  destruct tm as [| |ids]; try reflexivity. unfold populated.
  induction ids as [|i ids IH]; [reflexivity|]. simpl resolve.
  destruct (find_user i us); [|exact IH].
  now rewrite has_key_arr_cons, no_password_in_summary, IH.
Qed.

Ltac hide_fields :=
  simpl; rewrite ?has_key_text, ?has_key_ids, ?no_password_in_team; reflexivity.

Ltac hide_password :=
  repeat rewrite has_key_obj_cons;
  rewrite ?map_map;
  try (rewrite has_key_arr_map
        by (intros; first [apply no_password_in_row | hide_fields]));
  hide_fields.

(** X22. No answer of a member or project operation carries a property
    named [password], at any depth: not the created or updated member,
    not a row of the list, not a team summary of a project. *)
Theorem responses_hide_password :
  forall (userRole : option string) (op : Operation) (now : nat) (w : World),
    has_key "password" (body (fst (handle userRole op now w))) = false.
Proof.
  intros userRole op now w.
  assert (G : forall r w', handle userRole op now w = (r, w') ->
                           has_key "password" (body r) = false).
  { destruct op; run; intros r w' [= <- _]; unfold json, failure, access_denied,
      members_not_found, body;
      try reflexivity; hide_password. }
  destruct (handle userRole op now w) as [r w'] eqn:E. exact (G r w' eq_refl).
Qed.

(** ** Ids *)

Lemma NoDup_app_fresh {A} (key : A -> nat) (n : nat) (d : A) (l : list A) :
  NoDup (map key l) ->
  (forall x, In x l -> key x < n) ->
  key d = n ->
  NoDup (map key (l ++ [d])).
Proof.
  intros N B E. rewrite map_app. simpl.
  apply NoDup_app; [exact N | repeat constructor; intros [] |].
  intros k I [<-|[]]. apply in_map_iff in I as (x & Ex & Ix).
  specialize (B x Ix). lia.
Qed.

Lemma bound_app_fresh {A} (key : A -> nat) (n : nat) (d : A) (l : list A) :
  (forall x, In x l -> key x < n) ->
  key d = n ->
  forall x, In x (l ++ [d]) -> key x < S n.
Proof.
  intros B E x I. apply in_app_or in I as [I|[<-|[]]]; [|lia].
  specialize (B x I). lia.
Qed.

Lemma bound_later {A} (key : A -> nat) (n : nat) (l : list A) :
  (forall x, In x l -> key x < n) -> forall x, In x l -> key x < S n.
Proof. intros B x I. specialize (B x I). lia. Qed.

Lemma map_key_replace_first {A} (key : A -> nat) (i : nat) (d : A) (l : list A) :
  key d = i ->
  map key (replace_first (fun x => Nat.eqb (key x) i) d l) = map key l.
Proof.
  intros E. induction l as [|x l IH]; simpl; [reflexivity|].
  destruct (Nat.eqb_spec (key x) i) as [K|K]; simpl; congruence.
Qed.

Lemma In_replace_first {A} (sel : A -> bool) (d x : A) (l : list A) :
  In x (replace_first sel d l) -> x = d \/ In x l.
Proof.
  induction l as [|y l IH]; simpl; [intros []|].
  destruct (sel y); simpl; intros [E|I].
  - left. now symmetry.
  - right. now right.
  - right. now left.
  - destruct (IH I) as [->|J]; [now left | right; now right].
Qed.

Lemma In_remove_first {A} (sel : A -> bool) (x : A) (l : list A) :
  In x (remove_first sel l) -> In x l.
Proof.
  induction l as [|y l IH]; simpl; [intros []|].
  destruct (sel y); simpl.
  - intros I. now right.
  - intros [E|I]; [now left | right; now apply IH].
Qed.

Lemma NoDup_remove_first {A} (key : A -> nat) (sel : A -> bool) (l : list A) :
  NoDup (map key l) -> NoDup (map key (remove_first sel l)).
Proof.
  induction l as [|y l IH]; simpl; [auto|].
  intros N. inversion N as [|k ks Nin N']; subst.
  destruct (sel y); [exact N'|]. simpl. constructor; [|now apply IH].
  intros I. apply Nin. apply in_map_iff in I as (x & E & Ix).
  apply in_map_iff. exists x. split; [exact E | now apply In_remove_first in Ix].
Qed.

Lemma bound_replace_first {A} (key : A -> nat) (sel : A -> bool) (n : nat)
  (m d : A) (l : list A) :
  (forall x, In x l -> key x < n) ->
  In m l ->
  key d = key m ->
  forall x, In x (replace_first sel d l) -> key x < n.
Proof.
  intros B Im E x I. apply In_replace_first in I as [->|I]; [|now apply B].
  specialize (B m Im). lia.
Qed.

Lemma find_in {A} (f : A -> bool) (m : A) (l : list A) :
  find f l = Some m -> In m l.
Proof. intros F. now apply find_some in F. Qed.

Lemma bound_remove_first {A} (key : A -> nat) (sel : A -> bool) (n : nat)
  (l : list A) :
  (forall x, In x l -> key x < n) ->
  forall x, In x (remove_first sel l) -> key x < n.
Proof. intros B x I. apply B. now apply In_remove_first in I. Qed.

Ltac keep_ids :=
  match goal with
  | |- NoDup (map _ (_ ++ [_])) =>
      eapply NoDup_app_fresh; [eassumption | eassumption | reflexivity]
  | |- NoDup (map _ (replace_first _ _ _)) =>
      rewrite map_key_replace_first; [assumption | reflexivity]
  | |- NoDup (map _ (remove_first _ _)) =>
      apply NoDup_remove_first; assumption
  | |- forall x, In x (_ ++ [_]) -> _ < S _ =>
      eapply bound_app_fresh; [eassumption | reflexivity]
  | |- forall x, In x (replace_first _ _ _) -> _ < _ =>
      eapply bound_replace_first;
      [eassumption | eapply find_in; eassumption | reflexivity]
  | |- forall x, In x (remove_first _ _) -> _ < _ =>
      eapply bound_remove_first; eassumption
  | |- forall x, In x _ -> _ < S _ =>
      eapply bound_later; eassumption
  | _ => assumption
  end.

(** X23. Ids stay unique: if in both collections no id occurs twice and
    every id is older than the next one to be drawn, the same holds
    after any operation. *)
Theorem ids_stay_fresh :
  forall (userRole : option string) (op : Operation) (now : nat) (w : World),
    ids_fresh w -> ids_fresh (snd (handle userRole op now w)).
Proof.
  intros userRole op now w (Nu & Np & Bu & Bp). unfold ids_fresh.
  destruct op; run; (split; [|split; [|split]]); keep_ids.
Qed.

(** ** When an update succeeds, and deleting twice *)

(** X24. [PUT /members/:id] is answered 200 exactly when the caller is
    an administrator, the id resolves, the lookup by the payload's
    email (made when that differs from the stored one) selects nobody,
    and the schema accepts the updated document. *)
Theorem update_member_succeeds_iff :
  forall (userRole : option string) (id : oid) (b : MemberBody) (w : World),
    statusCode (fst (put_member userRole id b w)) = 200
    <-> (userRole = Some "admin"
         /\ exists member,
             find_user id (users w) = Some member
             /\ (b_email b <> email member ->
                 find_by_email (b_email b) (users w) = None)
             /\ userValid (update_member b member) = true).
Proof.
  intros userRole id b w. split.
  - destruct (not_admin userRole) eqn:A.
    + unfold_routes. simpl. rewrite A. discriminate.
    + apply not_admin_false in A. subst userRole.
      destruct (find_user id (users w)) as [m|] eqn:F;
        [|unfold_routes; simpl; rewrite F; discriminate].
      intros S. split; [reflexivity|]. exists m. split; [reflexivity|].
      revert S. unfold_routes. simpl. rewrite F. simpl.
      destruct (strict_neq (b_email b) (email m)) eqn:N; simpl.
      * destruct (find_by_email (b_email b) (users w)); simpl; [discriminate|].
        destruct (userValid (update_member b m)); simpl; [auto | discriminate].
      * destruct (userValid (update_member b m)); simpl; [|discriminate].
        intros _. split; [|reflexivity].
        intros Hne. apply strict_neq_spec in Hne. congruence.
  - intros (-> & m & F & L & V). unfold_routes. simpl. rewrite F. simpl.
    destruct (strict_neq (b_email b) (email m)) eqn:N; simpl.
    + apply strict_neq_spec in N. rewrite (L N). simpl. now rewrite V.
    + now rewrite V.
Qed.

(** X25. Deleting is final: with unique member ids, the same delete
    sent again, or a read of the deleted id, is answered 404 and the
    second delete changes nothing. *)
Theorem delete_member_twice :
  forall (id : oid) (w : World) (m : User),
    NoDup (map u_id (users w)) ->
    find_user id (users w) = Some m ->
    let w1 := snd (delete_member (Some "admin") id w) in
    statusCode (fst (delete_member (Some "admin") id w1)) = 404
    /\ users (snd (delete_member (Some "admin") id w1)) = users w1
    /\ statusCode (fst (get_member (Some "admin") id w1)) = 404.
Proof.
  intros id w m N F. cbv zeta.
  set (w1 := snd (delete_member (Some "admin") id w)).
  assert (G : find_user id (users w1) = None).
  { subst w1. unfold_routes. simpl. rewrite F. simpl.
    now apply (find_remove_same u_id). }
  repeat split; unfold_routes; simpl; rewrite G; reflexivity.
Qed.

(** ** Emails under a schema that requires one *)

(** When the schema accepts only members with an email, "every stored
    member has an email" is kept by every operation: stores built
    through the API satisfy what the status-only update asks of the
    store. *)
Lemma emails_stay_present (userRole : option string) (op : Operation) (now : nat)
  (w : World) :
  (forall u, userValid u = true -> exists e, email u = Val e) ->
  (forall u, In u (users w) -> exists e, email u = Val e) ->
  forall u, In u (users (snd (handle userRole op now w))) ->
            exists e, email u = Val e.
Proof.
  intros Req All. destruct op; run; try assumption.
  - intros x I. apply in_app_or in I as [I|[<-|[]]]; [now apply All|].
    match goal with
    | V : userValid ?d = true |- _ => destruct (Req d V) as [e E]; exists e; exact E
    end.
  - intros x I. apply In_replace_first in I as [->|I]; [|now apply All].
    match goal with
    | V : userValid ?d = true |- _ => destruct (Req d V) as [e E]; exists e; exact E
    end.
  - intros x I. apply In_replace_first in I as [->|I]; [|now apply All].
    match goal with
    | V : userValid ?d = true |- _ => destruct (Req d V) as [e E]; exists e; exact E
    end.
  - intros x I. apply In_remove_first in I. now apply All.
Qed.

End Routes.

(** ** Runs of the handlers *)

(** The header is compared with ["admin"] as it stands. *)
Example header_is_case_sensitive :
  fst (handle false name_and_email_required hash_when_new three_ms_later (Some "Admin") ListMembers 50 store_bob)
  = access_denied.
Proof. reflexivity. Qed.

(** Members come newest first and without their password. *)
Example members_newest_first :
  prop "members" (body (fst (get_members (Some "admin") store_bob_carol)))
  = Some (JArr [member_row carol; member_row bob]).
Proof. reflexivity. Qed.

Example delete_unknown_member :
  delete_member (Some "admin") 9 store_bob
  = (failure 404 "Team member not found", log_call (UserFindById 9) store_bob).
Proof. reflexivity. Qed.

(** A created project is read back with its team resolved to summaries. *)
Example project_round_trip :
  let b := mkProjectBody (Val "X") Undefined (Val "r") (Val [2]) Undefined in
  let w1 := snd (post_projects three_ms_later (Some "admin") b 50 store_bob) in
  option_map (prop "teamMembers")
             (prop "project" (body (fst (get_project (Some "admin") 3 w1))))
  = Some (Some (JArr [summary bob])).
Proof. reflexivity. Qed.

(** The referential check counts: an id listed twice is a mismatch
    although it resolves. *)
Example repeated_id_is_a_mismatch :
  let b := mkProjectBody (Val "X") Undefined (Val "r") (Val [2; 2]) Undefined in
  fst (post_projects three_ms_later (Some "admin") b 50 store_bob) = members_not_found.
Proof. reflexivity. Qed.

(** An unknown project status is caught by the schema on [save()] only. *)
Example unknown_status_is_internal :
  let b := mkProjectBody (Val "X") Undefined (Val "r") Undefined (Val "paused") in
  post_projects three_ms_later (Some "admin") b 50 empty_store
  = (failure 500 "Failed to create project",
     mkWorld [] [] 1 [ProjectSave 0]).
Proof. reflexivity. Qed.

(** With [ignoreUndefined] on, the lookup of an update without email
    selects the first member there is, the updated one included. *)
Example status_update_with_option_on :
  fst (put_member true name_and_email_required hash_when_new (Some "admin") 2
                  body_only_inactive store_bob)
  = email_conflict_on_update.
Proof. reflexivity. Qed.

Example status_update_with_option_off :
  statusCode (fst (put_member false name_and_email_required hash_when_new (Some "admin") 2
                              body_only_inactive store_bob)) = 200.
Proof. reflexivity. Qed.

(** Under a schema that lets a member without email in, three requests
    through the API end in the refusal of a status-only update. *)
Example status_update_after_emailless_member :
  let accept_all := fun _ : User => true in
  let w1 := snd (post_members false accept_all hash_when_new (Some "admin") body_without_email 10
                              empty_store) in
  let w2 := snd (post_members false accept_all hash_when_new (Some "admin") body_bob_again 20 w1) in
  List.length (users w2) = 2
  /\ fst (put_member false accept_all hash_when_new (Some "admin") 1 body_only_inactive w2)
     = email_conflict_on_update.
Proof. split; reflexivity. Qed.

(** ** The theorems at concrete requests *)

Lemma store_bob_unique : email_unique (users store_bob).
Proof.
  intros e. unfold email_count, has_email. simpl.
  destruct (e =? "bob@team.org"); simpl; lia.
Defined.

Lemma access_guard_denies_witness :
  let r := fst (handle false name_and_email_required hash_when_new three_ms_later None (CreateMember body_eve) 50 store_bob) in
  let w' := snd (handle false name_and_email_required hash_when_new three_ms_later None (CreateMember body_eve) 50 store_bob) in
  None <> Some "admin"
  /\ statusCode r = 403
  /\ has_success false r
  /\ r = access_denied
  /\ calls w' = calls store_bob
  /\ users w' = users store_bob
  /\ projects w' = projects store_bob.
Proof.
  split; [discriminate|].
  apply (access_guard_denies false name_and_email_required hash_when_new three_ms_later None (CreateMember body_eve)
                             50 store_bob).
  discriminate.
Defined.

Lemma email_uniqueness_invariant_witness :
  (email_unique (users store_bob)
   /\ email_unique
        (users (snd (handle false name_and_email_required hash_when_new three_ms_later (Some "admin")
                            (CreateMember body_eve) 50 store_bob))))
  /\ (fst (post_members false name_and_email_required hash_when_new (Some "admin") body_bob_again 50
                        store_bob) = email_conflict_on_create
      /\ users (snd (post_members false name_and_email_required hash_when_new (Some "admin")
                                  body_bob_again 50 store_bob))
         = users store_bob)
  /\ (fst (put_member false name_and_email_required hash_when_new (Some "admin") 3 body_bob_again
                      store_bob_carol) = email_conflict_on_update
      /\ users (snd (put_member false name_and_email_required hash_when_new (Some "admin") 3
                                body_bob_again store_bob_carol))
         = users store_bob_carol)
  /\ (let w1 := snd (post_members false name_and_email_required hash_when_new (Some "admin") body_eve
                                  50 store_bob) in
      fst (post_members false name_and_email_required hash_when_new (Some "admin") body_eve 60 w1)
      = email_conflict_on_create
      /\ email_count "eve@team.org"
           (users (snd (post_members false name_and_email_required hash_when_new (Some "admin")
                                     body_eve 60 w1))) = 1).
Proof.
  destruct (email_uniqueness_invariant false name_and_email_required hash_when_new three_ms_later) as (A & B & C & D).
  split; [|split; [|split]].
  - split; [exact store_bob_unique | apply A; exact store_bob_unique].
  - apply (B body_bob_again 50 store_bob bob); [simpl; auto | reflexivity].
  - apply (C 3 body_bob_again store_bob_carol carol bob);
      [reflexivity | discriminate | simpl; auto | reflexivity].
  - apply (D (Some "admin") body_eve body_eve 50 60 store_bob "eve@team.org");
      [exact store_bob_unique | reflexivity | reflexivity | left; reflexivity].
Defined.

Lemma create_project_checks_members_witness :
  let r := fst (post_projects three_ms_later (Some "admin") pbody_unknown_member 50 store_bob) in
  let w' := snd (post_projects three_ms_later (Some "admin") pbody_unknown_member 50 store_bob) in
  (statusCode r = 400 /\ has_success false r
   /\ projects w' = projects store_bob /\ users w' = users store_bob)
  /\ (r = members_not_found
      <-> List.length (users_in [42] (users store_bob)) <> List.length [42])
  /\ projects w' = projects store_bob.
Proof.
  destruct (create_project_checks_members three_ms_later pbody_unknown_member 50 store_bob [42])
    as (A & B & C); [reflexivity | discriminate |].
  split; [|split].
  - apply A.
    + simpl. constructor; [intros [] | constructor].
    + intros R. destruct (R 42 (or_introl eq_refl)) as (u & [<-|[]] & E).
      discriminate E.
  - apply B; reflexivity.
  - apply C. reflexivity.
Defined.

Lemma partial_update_semantics_witness :
  (statusCode (fst (put_member false name_and_email_required hash_when_new (Some "admin") 2
                               body_blank_fields store_bob)) = 200
   /\ exists old new,
       find_user 2 (users store_bob) = Some old
       /\ find_user 2 (users (snd (put_member false name_and_email_required hash_when_new (Some "admin")
                                              2 body_blank_fields store_bob)))
          = Some new
       /\ member_update_rules body_blank_fields old new)
  /\ (statusCode (fst (put_project (Some "admin") 5 pbody_blank_fields 70
                                   store_site)) = 200
      /\ exists old new,
          find_project 5 (projects store_site) = Some old
          /\ find_project 5 (projects (snd (put_project (Some "admin") 5
                                                        pbody_blank_fields 70
                                                        store_site)))
             = Some new
          /\ project_update_rules pbody_blank_fields old new).
Proof.
  destruct (partial_update_semantics false name_and_email_required hash_when_new) as (A & B).
  split; (split; [reflexivity|]).
  - apply (A (Some "admin") 2 body_blank_fields store_bob). reflexivity.
  - apply (B (Some "admin") 5 pbody_blank_fields 70 store_site). reflexivity.
Defined.

Lemma update_member_email_lookup_witness :
  let r := fst (put_member false name_and_email_required hash_when_new (Some "admin") 2
                           body_only_inactive store_ann_bob) in
  let w' := snd (put_member false name_and_email_required hash_when_new (Some "admin") 2
                            body_only_inactive store_ann_bob) in
  (exists rest,
      calls w' = calls store_ann_bob
                 ++ UserFindById 2 :: UserFindOne (b_email body_only_inactive) :: rest)
  /\ r = email_conflict_on_update
  /\ users w' = users store_ann_bob.
Proof.
  destruct (update_member_email_lookup false name_and_email_required hash_when_new 2 body_only_inactive
                                       store_ann_bob bob)
    as (A & B); [reflexivity | discriminate |].
  split; [exact A|].
  apply (B ann); [simpl; auto | reflexivity].
Defined.

Lemma create_member_keeps_supplied_role_witness :
  statusCode (fst (post_members false name_and_email_required hash_when_new (Some "admin") body_eve 50
                                store_bob)) = 200
  /\ exists m,
      users (snd (post_members false name_and_email_required hash_when_new (Some "admin") body_eve 50
                               store_bob)) = users store_bob ++ [m]
      /\ role m = Val "admin"
      /\ u_status m = Val "active"
      /\ assignedProjects m = Val [99].
Proof.
  split; [reflexivity|].
  destruct (create_member_keeps_supplied_role false name_and_email_required hash_when_new (Some "admin")
                                              body_eve 50 store_bob)
    as (m & U & R1 & _ & _ & S2 & P1 & _ & RA); [reflexivity|].
  exists m. split; [exact U|]. split; [|split].
  - apply RA. reflexivity.
  - apply S2. reflexivity.
  - apply P1. reflexivity.
Defined.

Lemma assigned_projects_not_validated_witness :
  projects store_bob = []
  /\ (exists m,
        users (snd (post_members false name_and_email_required hash_when_new (Some "admin") body_eve 50
                                 store_bob)) = users store_bob ++ [m]
        /\ assignedProjects m = Val [99])
  /\ (exists m,
        find_user 2 (users (snd (put_member false name_and_email_required hash_when_new (Some "admin")
                                            2 body_eve store_bob))) = Some m
        /\ assignedProjects m = Val [99])
  /\ fst (post_members false name_and_email_required hash_when_new (Some "admin") body_eve 50
                       (set_projects [site] store_bob))
     = fst (post_members false name_and_email_required hash_when_new (Some "admin") body_eve 50 store_bob).
Proof.
  destruct (assigned_projects_not_validated false name_and_email_required hash_when_new (Some "admin") 2
                                            body_eve 50 store_bob [99])
    as (A & _ & C & D); [reflexivity|].
  split; [reflexivity|]. split; [|split].
  - apply C. reflexivity.
  - apply D. reflexivity.
  - apply (A [site]).
Defined.

Lemma unknown_member_not_found_witness :
  let miss := (failure 404 "Team member not found",
               log_call (UserFindById 9) store_bob) in
  find_user 9 (users store_bob) = None
  /\ get_member (Some "admin") 9 store_bob = miss
  /\ put_member false name_and_email_required hash_when_new (Some "admin") 9 body_eve store_bob
     = miss
  /\ delete_member (Some "admin") 9 store_bob = miss.
Proof.
  split; [reflexivity|].
  apply (unknown_member_not_found false name_and_email_required hash_when_new 9 body_eve store_bob).
  reflexivity.
Defined.

Lemma unknown_project_not_found_witness :
  let miss := (failure 404 "Project not found",
               log_call (ProjectFindById 9) store_site) in
  find_project 9 (projects store_site) = None
  /\ get_project (Some "admin") 9 store_site = miss
  /\ put_project (Some "admin") 9 pbody_blank_fields 70 store_site = miss
  /\ delete_project (Some "admin") 9 store_site = miss.
Proof.
  split; [reflexivity|].
  apply (unknown_project_not_found 9 pbody_blank_fields 70 store_site).
  reflexivity.
Defined.

Lemma delete_member_removes_witness :
  let r := fst (delete_member (Some "admin") 2 store_site) in
  let w' := snd (delete_member (Some "admin") 2 store_site) in
  find_user 2 (users store_site) = Some bob
  /\ statusCode r = 200
  /\ has_success true r
  /\ S (List.length (users w')) = List.length (users store_site)
  /\ find_user 7 (users w') = find_user 7 (users store_site)
  /\ find_user 2 (users w') = None
  /\ projects w' = [site]
  /\ teamMembers site = Val [2].
Proof.
  cbv zeta.
  destruct (delete_member_removes 2 store_site bob eq_refl)
    as (A & B & C & D & E & F).
  repeat match goal with |- _ /\ _ => split end; try assumption.
  - reflexivity.
  - apply D. discriminate.
  - apply E. simpl. constructor; [intros [] | constructor].
  - reflexivity.
Defined.

Lemma delete_project_removes_witness :
  let r := fst (delete_project (Some "admin") 5 store_site) in
  let w' := snd (delete_project (Some "admin") 5 store_site) in
  find_project 5 (projects store_site) = Some site
  /\ statusCode r = 200
  /\ has_success true r
  /\ S (List.length (projects w')) = List.length (projects store_site)
  /\ find_project 7 (projects w') = find_project 7 (projects store_site)
  /\ find_project 5 (projects w') = None
  /\ users w' = users store_site.
Proof.
  cbv zeta.
  destruct (delete_project_removes 5 store_site site eq_refl)
    as (A & B & C & D & E & F).
  repeat match goal with |- _ /\ _ => split end; try assumption.
  - reflexivity.
  - apply D. discriminate.
  - apply E. simpl. constructor; [intros [] | constructor].
Defined.

Lemma failure_changes_nothing_witness :
  let rw := handle false name_and_email_required hash_when_new three_ms_later (Some "admin")
                   (CreateMember body_bob_again) 50 store_bob in
  statusCode (fst rw) = 400
  /\ users (snd rw) = users store_bob
  /\ projects (snd rw) = projects store_bob.
Proof.
  split; [reflexivity|].
  apply (failure_changes_nothing false name_and_email_required hash_when_new three_ms_later (Some "admin")
                                 (CreateMember body_bob_again) 50 store_bob).
  cbv. discriminate.
Defined.

Lemma reads_and_frames_witness :
  (users (snd (handle false name_and_email_required hash_when_new three_ms_later (Some "admin") (GetMember 2) 50
                      store_site)) = users store_site
   /\ projects (snd (handle false name_and_email_required hash_when_new three_ms_later (Some "admin")
                            (GetMember 2) 50 store_site)) = projects store_site)
  /\ projects (snd (handle false name_and_email_required hash_when_new three_ms_later (Some "admin")
                           (DeleteMember 2) 50 store_site)) = projects store_site
  /\ users (snd (handle false name_and_email_required hash_when_new three_ms_later (Some "admin")
                        (DeleteProject 5) 50 store_site)) = users store_site.
Proof.
  split; [|split].
  - apply (reads_and_frames false name_and_email_required hash_when_new three_ms_later (Some "admin")
                            (GetMember 2) 50 store_site). reflexivity.
  - apply (reads_and_frames false name_and_email_required hash_when_new three_ms_later (Some "admin")
                            (DeleteMember 2) 50 store_site). reflexivity.
  - apply (reads_and_frames false name_and_email_required hash_when_new three_ms_later (Some "admin")
                            (DeleteProject 5) 50 store_site). reflexivity.
Defined.

Lemma create_member_round_trip_witness :
  let w1 := snd (post_members false name_and_email_required hash_when_new (Some "admin") body_eve
                              50 store_bob) in
  let r := fst (get_member (Some "admin") 3 w1) in
  statusCode r = 200
  /\ exists fields,
      prop "member" (body r) = Some (JObj fields)
      /\ assoc "_id" fields = Some (JId 3)
      /\ assoc "name" fields = Some (JStr "Eve")
      /\ assoc "email" fields = Some (JStr "eve@team.org")
      /\ assoc "role" fields = Some (JStr "admin")
      /\ assoc "joinedDate" fields = Some (JDate 50).
Proof.
  apply (create_member_round_trip false name_and_email_required hash_when_new (Some "admin")
                                  body_eve 50 store_bob).
  - reflexivity.
  - intros u [<-|[]]. discriminate.
Defined.

Lemma update_member_keeps_identity_witness :
  exists old new,
    find_user 2 (users store_bob) = Some old
    /\ find_user 2 (users (snd (put_member false name_and_email_required hash_when_new
                                           (Some "admin") 2 body_eve store_bob)))
       = Some new
    /\ u_id new = 2
    /\ u_createdAt new = u_createdAt old
    /\ email new = Val "eve@team.org".
Proof.
  destruct (update_member_keeps_identity false name_and_email_required hash_when_new
                                         (Some "admin") 2 body_eve store_bob)
    as (old & new & A & B & C & E & F & _); [reflexivity|].
  exists old, new.
  repeat match goal with |- _ /\ _ => split end; try assumption.
  apply F. reflexivity.
Defined.

Lemma same_email_no_lookup_witness :
  calls (snd (put_member false name_and_email_required hash_when_new (Some "admin") 2
                         body_bob_again store_bob))
  = calls store_bob ++ [UserFindById 2; UserSave 2]
  /\ fst (put_member false name_and_email_required hash_when_new (Some "admin") 2 body_bob_again
                     store_bob) <> email_conflict_on_update.
Proof.
  apply (same_email_no_lookup false name_and_email_required hash_when_new 2 body_bob_again
                              store_bob bob); reflexivity.
Defined.

Lemma create_project_requires_names_witness :
  js_truthy (b_projectName pbody_blank_fields) = false
  /\ post_projects three_ms_later (Some "admin") pbody_blank_fields 50 store_bob
     = (failure 400 "Project name and GitHub repository are required", store_bob).
Proof.
  split; [reflexivity|].
  apply (create_project_requires_names three_ms_later pbody_blank_fields 50 store_bob).
  left. reflexivity.
Defined.

Lemma create_project_defaults_witness :
  exists p,
    projects (snd (post_projects three_ms_later (Some "admin") pbody_team_bob 50 store_bob))
    = projects store_bob ++ [p]
    /\ p_id p = 3
    /\ projectName p = Val "X"
    /\ githubRepo p = Val "r"
    /\ description p = Val ""
    /\ p_status p = Val "active"
    /\ teamMembers p = Val [2]
    /\ p_createdAt p = 50
    /\ p_updatedAt p = 53.
Proof.
  destruct (create_project_defaults three_ms_later (Some "admin") pbody_team_bob 50 store_bob)
    as (p & A & B & C & D & _ & E & _ & F & G & _ & H & I); [reflexivity|].
  exists p.
  repeat match goal with |- _ /\ _ => split end; try assumption.
  - apply E. reflexivity.
  - apply F. reflexivity.
  - apply (G [2]). reflexivity.
Defined.

Lemma update_project_timestamps_witness :
  exists old new,
    find_project 5 (projects store_site) = Some old
    /\ find_project 5 (projects (snd (put_project (Some "admin") 5
                                                  pbody_blank_fields 70 store_site)))
       = Some new
    /\ p_id new = 5
    /\ p_createdAt new = p_createdAt old
    /\ p_updatedAt new = 70.
Proof.
  apply (update_project_timestamps (Some "admin") 5 pbody_blank_fields 70 store_site).
  reflexivity.
Defined.

Lemma update_project_checks_members_witness :
  fst (put_project (Some "admin") 5 pbody_unknown_member 70 store_site)
  = members_not_found
  /\ projects (snd (put_project (Some "admin") 5 pbody_unknown_member 70 store_site))
     = projects store_site
  /\ users (snd (put_project (Some "admin") 5 pbody_unknown_member 70 store_site))
     = users store_site.
Proof.
  apply (update_project_checks_members 5 pbody_unknown_member 70 store_site site [42]).
  - reflexivity.
  - reflexivity.
  - simpl. constructor; [intros [] | constructor].
  - intros R. destruct (R 42 (or_introl eq_refl)) as (u & [<-|[]] & E).
    discriminate E.
Defined.

Lemma create_project_round_trip_witness :
  let w1 := snd (post_projects three_ms_later (Some "admin") pbody_team_bob 50 store_bob) in
  let r := fst (get_project (Some "admin") 3 w1) in
  statusCode r = 200
  /\ exists fields ms,
      prop "project" (body r) = Some (JObj fields)
      /\ assoc "projectName" fields = Some (JStr "X")
      /\ assoc "teamMembers" fields = Some (JArr (map summary ms))
      /\ map u_id ms = [2]
      /\ forall m, In m ms -> In m (users store_bob).
Proof.
  apply (create_project_round_trip three_ms_later (Some "admin") pbody_team_bob 50 store_bob [2]).
  - reflexivity.
  - simpl. constructor; [intros [] | constructor].
  - intros p [].
  - reflexivity.
Defined.

Lemma projects_stay_valid_witness :
  projects_valid (projects store_site)
  /\ projects_valid
       (projects (snd (handle false name_and_email_required hash_when_new three_ms_later (Some "admin")
                              (UpdateProject 5 pbody_blank_fields) 70 store_site))).
Proof.
  assert (V : projects_valid (projects store_site)).
  { repeat constructor. }
  split; [exact V|].
  now apply (projects_stay_valid false name_and_email_required hash_when_new three_ms_later (Some "admin")
                                 (UpdateProject 5 pbody_blank_fields) 70 store_site).
Defined.

Lemma create_project_unknown_status_witness :
  statusCode (fst (post_projects three_ms_later (Some "admin") pbody_paused 50 store_bob)) <> 200
  /\ projects (snd (post_projects three_ms_later (Some "admin") pbody_paused 50 store_bob))
     = projects store_bob
  /\ fst (post_projects three_ms_later (Some "admin") pbody_paused 50 store_bob)
     = failure 500 "Failed to create project".
Proof.
  destruct (create_project_unknown_status three_ms_later (Some "admin") pbody_paused 50 store_bob
                                          "paused")
    as (A & B & C).
  - reflexivity.
  - discriminate.
  - intros [H|[H|[H|[]]]]; discriminate H.
  - split; [exact A|]. split; [exact B|]. apply C; reflexivity.
Defined.

Lemma store_site_fresh : ids_fresh store_site.
Proof.
  repeat split; simpl.
  - constructor; [intros [] | constructor].
  - constructor; [intros [] | constructor].
  - intros u [<-|[]]. simpl. lia.
  - intros p [<-|[]]. simpl. lia.
Defined.

Lemma ids_stay_fresh_witness :
  ids_fresh store_site
  /\ ids_fresh (snd (handle false name_and_email_required hash_when_new three_ms_later (Some "admin")
                            (CreateMember body_eve) 50 store_site)).
Proof.
  split; [exact store_site_fresh|].
  apply (ids_stay_fresh false name_and_email_required hash_when_new three_ms_later (Some "admin")
                        (CreateMember body_eve) 50 store_site).
  exact store_site_fresh.
Defined.

Lemma delete_member_twice_witness :
  let w1 := snd (delete_member (Some "admin") 2 store_bob) in
  statusCode (fst (delete_member (Some "admin") 2 w1)) = 404
  /\ users (snd (delete_member (Some "admin") 2 w1)) = users w1
  /\ statusCode (fst (get_member (Some "admin") 2 w1)) = 404.
Proof.
  apply (delete_member_twice 2 store_bob bob).
  - simpl. constructor; [intros [] | constructor].
  - reflexivity.
Defined.

Lemma put_member_status_only_witness :
  let rw := put_member false name_and_email_required hash_when_new (Some "admin") 2
                       body_only_inactive store_bob_carol in
  (forall u, In u (users store_bob_carol) -> exists e, email u = Val e)
  /\ find_user 2 (users store_bob_carol) = Some bob
  /\ statusCode (fst rw) = 200
  /\ has_success true (fst rw)
  /\ exists m',
      find_user 2 (users (snd rw)) = Some m'
      /\ u_status m' = Val "inactive"
      /\ name m' = name bob
      /\ email m' = email bob
      /\ role m' = role bob.
Proof.
  assert (All : forall u, In u (users store_bob_carol) -> exists e, email u = Val e).
  { intros u [<-|[<-|[]]]; eexists; reflexivity. }
  split; [exact All|]. split; [reflexivity|].
  apply (put_member_status_only false name_and_email_required hash_when_new 2
                                store_bob_carol bob);
    [reflexivity | exact All | reflexivity | reflexivity].
Defined.
